(** * @synet/identity: the Identity unit (src/identity-types.ts, the class
    that extends [Unit<IdentityProps>]) and its Result envelope
    (src/result.ts), embedded in Rocq.

    The Identity class composes four units that live in other packages
    (@synet/keys, @synet/did, @synet/credential, @synet/unit).  They are
    taken here through an interface, [Platform]; every call the Identity
    makes to one of them is recorded in a call log, so that "is invoked"
    and "is not called" are statements about that log. *)

From stdpp Require Import base strings gmap list option.

#[local] Set Warnings "-register-all,-clear-no-such-hyp".

(** ** JavaScript data *)

(** Plain data values: what a credential, a metadata map or a capability
    argument can hold. *)
Inductive jsdata : Type :=
  | DUndefined
  | DNull
  | DBool (b : bool)
  | DString (s : string)
  | DDate (t : Z)
  | DObject (o : gmap string jsdata).

(** A [Date] is its time value in milliseconds. *)
Definition Date : Type := Z.

(** A JavaScript [Error] object. *)
Record Error : Type := new_Error { Error_message : string }.

(** What a [throw] carries: an [Error] instance, or any other value. *)
Inductive thrown : Type :=
  | ThrowError (e : Error)
  | ThrowOther (v : jsdata).

(** The outcome of evaluating a call: it returns, or it throws.  A rejected
    promise that is awaited is a throw as well. *)
Inductive outcome (A : Type) : Type :=
  | Return (a : A)
  | Throw (t : thrown).
Arguments Return {A} a.
Arguments Throw {A} t.

(** Truthiness of an optional string: [undefined], [null] and the empty
    string are falsy. [truthy o] is the string when [o] is truthy. *)
Definition truthy (o : option string) : option string :=
  match o with
  | Some s => if decide (s = "") then None else Some s
  | None => None
  end.

Definition falsy (o : option string) : bool := bool_decide (truthy o = None).

(** Reading a field declared [string]; after a truthiness test it is the
    string itself. *)
Definition string_of (o : option string) : string := default "" o.

(** [a || d] on an optional string with a string default. *)
Definition str_or (o : option string) (d : string) : string :=
  default d (truthy o).

(** [a || d] on an optional object (objects are always truthy). *)
Definition obj_or {A : Type} (o : option A) (d : A) : A := default d o.

(** ** src/result.ts *)

Module Result.

Record error_t : Type := {
  message : string;
  cause : option Error;
  data_ : option (list jsdata)
}.

(** The constructor of the class is private: a [Result] is built by
    [Result.success] or by [Result.fail] only. *)
Inductive t (T : Type) : Type :=
  | success (value : T)
  | fail (message : string) (cause : option Error) (rest : list jsdata).
Arguments success {T} value.
Arguments fail {T} message cause rest.

Definition isSuccess {T} (r : t T) : bool :=
  match r with success _ => true | fail _ _ _ => false end.

Definition isFailure {T} (r : t T) : bool := negb (isSuccess r).

Definition error {T} (r : t T) : option error_t :=
  match r with
  | success _ => None
  | fail m c rest =>
      Some {| message := m; cause := c;
              data_ := if decide (0 < length rest) then Some rest else None |}
  end.

Definition errorMessage {T} (r : t T) : option string := message <$> error r.

Definition errorCause {T} (r : t T) : option Error := error r ≫= cause.

(** The [value] getter throws on a failed result. *)
Definition value {T} (r : t T) : outcome T :=
  match r with
  | success v => Return v
  | fail _ _ _ =>
      Throw (ThrowError (new_Error "Cannot get value from a failed result"))
  end.

End Result.

(** ** Teaching contracts and capabilities (@synet/unit) *)

(** A capability is a callable taking positional arguments. *)
Definition capability : Type := list jsdata → outcome jsdata.

Record TeachingContract : Type := {
  unitId : string;
  capabilities : list (string * capability)
}.

Record UnitSchema : Type := { schema_id : string; schema_version : string }.

(** ** Arguments of the units' factories *)

Record KeyPair : Type := { publicKey : string; privateKey : string }.

Record SignerConfig : Type := {
  sc_privateKeyPEM : string;
  sc_publicKeyPEM : string;
  sc_keyType : string;
  sc_secure : option bool;
  sc_name : string            (* metadata.name *)
}.

Record DIDConfig : Type := {
  dc_publicKeyHex : string;
  dc_keyType : string;
  dc_alias : string           (* metadata.alias *)
}.

Module Party.
Record t : Type := { id : string; name : string }.
End Party.

Record IdentitySubject : Type := { holder : Party.t; issuedBy : Party.t }.

(** A verifiable credential is an object; its content belongs to
    @synet/credential. [{}] is the empty object. *)
Abbreviation SynetVerifiableCredential := (gmap string jsdata).

(** ** The call log *)

(** Every call the Identity makes to a collaborator. *)
Inductive Call : Type :=
  | generateKeyPair_call (type format : string)
  | hexToPem_call (hex keyType : string)
  | hexPrivateKeyToPem_call (hex : string)
  | Signer_create_call (config : SignerConfig)
  | Signer_createKey_call
  | Signer_getPublicKeyHex_call
  | Signer_sign_call (data : string)
  | Signer_verify_call (data signature : string)
  | Signer_teach_call
  | Key_teach_call
  | DID_create_call (config : DIDConfig)
  | DID_generateKey_call
  | Credential_create_call
  | Credential_learn_call (units : list string)
  | Credential_issueCredential_call
      (subject : IdentitySubject) (type issuer : string)
  | Credential_teach_call
  | createUnitSchema_call (id version : string)
  | new_Date_call
  | execute_call (name : string) (args : list jsdata).

(** A computation: the calls it made, and how it ended. *)
Definition Eff (A : Type) : Type := list Call * outcome A.

#[global] Instance Eff_ret : MRet Eff := λ A a, ([], Return a).

#[global] Instance Eff_bind : MBind Eff := λ A B f m,
  match m with
  | (l, Return a) => let '(l', r) := f a in (l ++ l', r)
  | (l, Throw t) => (l, Throw t)
  end.

Definition throw {A : Type} (t : thrown) : Eff A := ([], Throw t).

Definition throw_new_Error {A : Type} (msg : string) : Eff A :=
  throw (ThrowError (new_Error msg)).

(** One call to a collaborator. *)
Definition call {A : Type} (c : Call) (o : outcome A) : Eff A := ([c], o).

(** [try { m } catch (error) { h error }]. *)
Definition try_catch {A : Type} (m : Eff A) (h : thrown → Eff A) : Eff A :=
  match m with
  | (l, Throw t) => let '(l', r) := h t in (l ++ l', r)
  | (l, Return a) => (l, Return a)
  end.

Definition calls {A : Type} (m : Eff A) : list Call := m.1.
Definition result {A : Type} (m : Eff A) : outcome A := m.2.

(** ** The collaborators, as an interface

    [None] stands for a falsy return ([null] or [undefined]) where the
    source tests for one. *)
Class Platform : Type := {
  Signer : Type;
  Key : Type;
  DID : Type;
  Credential : Type;
  (* @synet/keys *)
  keys_generateKeyPair : string → string → outcome (option KeyPair);
  keys_hexToPem : string → string → outcome (option string);
  keys_hexPrivateKeyToPem : string → outcome (option string);
  keys_Signer_create : SignerConfig → outcome (option Signer);
  keys_Signer_createKey : Signer → outcome (option Key);
  keys_Signer_getPublicKeyHex : Signer → outcome (option string);
  keys_Signer_sign : Signer → string → outcome string;
  keys_Signer_verify : Signer → string → string → outcome bool;
  keys_Signer_teach : Signer → outcome TeachingContract;
  keys_Key_teach : Key → outcome TeachingContract;
  (* @synet/did *)
  did_DID_create : DIDConfig → outcome (option DID);
  did_DID_generateKey : DID → outcome (option string);
  (* @synet/credential; learn returns the unit after it has learned *)
  credential_Credential_create : outcome Credential;
  credential_Credential_learn :
    Credential → list TeachingContract → outcome Credential;
  credential_Credential_issueCredential :
    Credential → IdentitySubject → string → string →
    outcome (Result.t SynetVerifiableCredential);
  credential_Credential_teach : Credential → outcome TeachingContract;
  (* @synet/unit *)
  unit_createUnitSchema : string → string → outcome UnitSchema;
  (* the clock *)
  clock_now : Date
}.

(** ** The records of src/identity-types.ts *)

(** External input to the static [create]. The interface declares the first
    four fields as required strings; [create] tests them at run time, so
    they are optional here. *)
Module IdentityConfig.
Record t : Type := {
  alias : option string;
  did : option string;
  publicKeyHex : option string;
  privateKeyHex : option string;
  kid : option string;
  provider : option string;
  credential : option SynetVerifiableCredential;
  metadata : option (gmap string jsdata);
  createdAt : option Date
}.
End IdentityConfig.

(** Internal state after validation. *)
Module IdentityProps.
Record t `{Platform} : Type := {
  dna : UnitSchema;
  alias : string;
  did : string;
  kid : string;
  publicKeyHex : string;
  privateKeyHex : option string;
  provider : string;
  credential : SynetVerifiableCredential;
  metadata : gmap string jsdata;
  createdAt : Date;
  didUnit : DID;
  signerUnit : Signer;
  keyUnit : Key;
  credentialUnit : Credential
}.
End IdentityProps.

(** The domain record. *)
Module IIdentity.
Record t : Type := {
  alias : string;
  did : string;
  kid : string;
  publicKeyHex : string;
  privateKeyHex : option string;
  provider : string;
  credential : SynetVerifiableCredential;
  metadata : option (gmap string jsdata);
  createdAt : Date
}.
End IIdentity.

Module IdentityPresent.
Record t : Type := {
  did : string;
  publicKeyHex : string;
  credential : SynetVerifiableCredential
}.
End IdentityPresent.

(** ** Records as JavaScript objects

    An object is a finite map from property names to property values. A
    property whose value is [undefined] is still a property of the object. *)
Inductive propval `{Platform} : Type :=
  | PData (d : jsdata)
  | PSchema (s : UnitSchema)
  | PDID (u : DID)
  | PSigner (u : Signer)
  | PKey (u : Key)
  | PCredential (u : Credential).

Definition PString `{Platform} (s : string) : propval := PData (DString s).

Definition POptString `{Platform} (o : option string) : propval :=
  PData (from_option DString DUndefined o).

Definition PObject `{Platform} (o : gmap string jsdata) : propval :=
  PData (DObject o).

Definition POptObject `{Platform} (o : option (gmap string jsdata)) : propval :=
  PData (from_option DObject DUndefined o).

Definition PDate `{Platform} (d : Date) : propval := PData (DDate d).

Section Objects.
Context `{Platform}.

(** The own properties of a props object, as [create] and [generate]
    build it. *)
Definition IdentityProps_object (p : IdentityProps.t) : gmap string propval :=
  list_to_map [
    ("dna", PSchema (IdentityProps.dna p));
    ("alias", PString (IdentityProps.alias p));
    ("did", PString (IdentityProps.did p));
    ("kid", PString (IdentityProps.kid p));
    ("publicKeyHex", PString (IdentityProps.publicKeyHex p));
    ("privateKeyHex", POptString (IdentityProps.privateKeyHex p));
    ("provider", PString (IdentityProps.provider p));
    ("credential", PObject (IdentityProps.credential p));
    ("metadata", PObject (IdentityProps.metadata p));
    ("createdAt", PDate (IdentityProps.createdAt p));
    ("didUnit", PDID (IdentityProps.didUnit p));
    ("signerUnit", PSigner (IdentityProps.signerUnit p));
    ("keyUnit", PKey (IdentityProps.keyUnit p));
    ("credentialUnit", PCredential (IdentityProps.credentialUnit p))
  ].

(** The object literal of [toDomain] and [toJSON]. *)
Definition IIdentity_object (d : IIdentity.t) : gmap string propval :=
  list_to_map [
    ("alias", PString (IIdentity.alias d));
    ("did", PString (IIdentity.did d));
    ("kid", PString (IIdentity.kid d));
    ("publicKeyHex", PString (IIdentity.publicKeyHex d));
    ("privateKeyHex", POptString (IIdentity.privateKeyHex d));
    ("provider", PString (IIdentity.provider d));
    ("credential", PObject (IIdentity.credential d));
    ("metadata", POptObject (IIdentity.metadata d));
    ("createdAt", PDate (IIdentity.createdAt d))
  ].

(** The object literal of [present]. *)
Definition IdentityPresent_object (d : IdentityPresent.t)
  : gmap string propval :=
  list_to_map [
    ("did", PString (IdentityPresent.did d));
    ("publicKeyHex", PString (IdentityPresent.publicKeyHex d));
    ("credential", PObject (IdentityPresent.credential d))
  ].

(** A domain record handed to [create]: the same object, read at the
    type [IdentityConfig]. *)
Definition config_of_domain (d : IIdentity.t) : IdentityConfig.t :=
  {| IdentityConfig.alias := Some (IIdentity.alias d);
     IdentityConfig.did := Some (IIdentity.did d);
     IdentityConfig.publicKeyHex := Some (IIdentity.publicKeyHex d);
     IdentityConfig.privateKeyHex := IIdentity.privateKeyHex d;
     IdentityConfig.kid := Some (IIdentity.kid d);
     IdentityConfig.provider := Some (IIdentity.provider d);
     IdentityConfig.credential := Some (IIdentity.credential d);
     IdentityConfig.metadata := IIdentity.metadata d;
     IdentityConfig.createdAt := Some (IIdentity.createdAt d) |}.

End Objects.

(** ** Calls to the collaborators, logged *)

Section Collaborators.
Context `{Platform}.

Definition generateKeyPair (type format : string) : Eff (option KeyPair) :=
  call (generateKeyPair_call type format) (keys_generateKeyPair type format).

Definition hexToPem (hex keyType : string) : Eff (option string) :=
  call (hexToPem_call hex keyType) (keys_hexToPem hex keyType).

Definition hexPrivateKeyToPem (hex : string) : Eff (option string) :=
  call (hexPrivateKeyToPem_call hex) (keys_hexPrivateKeyToPem hex).

Definition Signer_create (config : SignerConfig) : Eff (option Signer) :=
  call (Signer_create_call config) (keys_Signer_create config).

Definition Signer_createKey (s : Signer) : Eff (option Key) :=
  call Signer_createKey_call (keys_Signer_createKey s).

Definition Signer_getPublicKeyHex (s : Signer) : Eff (option string) :=
  call Signer_getPublicKeyHex_call (keys_Signer_getPublicKeyHex s).

Definition Signer_sign (s : Signer) (data : string) : Eff string :=
  call (Signer_sign_call data) (keys_Signer_sign s data).

Definition Signer_verify (s : Signer) (data signature : string) : Eff bool :=
  call (Signer_verify_call data signature)
       (keys_Signer_verify s data signature).

Definition Signer_teach (s : Signer) : Eff TeachingContract :=
  call Signer_teach_call (keys_Signer_teach s).

Definition Key_teach (k : Key) : Eff TeachingContract :=
  call Key_teach_call (keys_Key_teach k).

Definition DID_create (config : DIDConfig) : Eff (option DID) :=
  call (DID_create_call config) (did_DID_create config).

Definition DID_generateKey (d : DID) : Eff (option string) :=
  call DID_generateKey_call (did_DID_generateKey d).

Definition Credential_create : Eff Credential :=
  call Credential_create_call credential_Credential_create.

Definition Credential_learn (c : Credential) (contracts : list TeachingContract)
  : Eff Credential :=
  call (Credential_learn_call (unitId <$> contracts))
       (credential_Credential_learn c contracts).

Definition Credential_issueCredential
    (c : Credential) (subject : IdentitySubject) (type issuer : string)
  : Eff (Result.t SynetVerifiableCredential) :=
  call (Credential_issueCredential_call subject type issuer)
       (credential_Credential_issueCredential c subject type issuer).

Definition Credential_teach (c : Credential) : Eff TeachingContract :=
  call Credential_teach_call (credential_Credential_teach c).

Definition createUnitSchema (id version : string) : Eff UnitSchema :=
  call (createUnitSchema_call id version) (unit_createUnitSchema id version).

Definition new_Date : Eff Date := call new_Date_call (Return clock_now).

End Collaborators.

(** ** The Identity unit *)

(** An Identity is a [Unit<IdentityProps>]: its props, and the capability
    registry [_capabilities] of the Unit base class. *)
Record Identity `{Platform} : Type := {
  props : IdentityProps.t;
  _capabilities : gmap string capability
}.

Definition VERSION : string := "1.0.1".

Section Unit.
Context `{Platform}.

(** Modelled from the spec: the constructor of the Unit base class
    (@synet/unit) keeps the props it is given and starts with a registry
    that nothing has been learned into. *)
Definition new_Identity (p : IdentityProps.t) : Identity :=
  {| props := p; _capabilities := ∅ |}.

(** Modelled from the spec: [can(name)] of the Unit base class: the
    registry contains an entry under [name]. *)
Definition can (this : Identity) (name : string) : bool :=
  bool_decide (is_Some (_capabilities this !! name)).

(** Modelled from the spec: [execute(name, ...args)] of the Unit base
    class: the entry under [name] is invoked with the positional
    arguments and its result is returned; there is an error when the
    registry has no such entry. *)
Definition execute (this : Identity) (name : string) (args : list jsdata)
  : Eff jsdata :=
  match _capabilities this !! name with
  | Some f => call (execute_call name args) (f args)
  | None => throw_new_Error ("Unknown capability: " +:+ name)
  end.

(** Modelled from the spec: learning imports every capability of a
    teaching contract into the registry under the namespaced name
    (unit id, a dot, the operation name). *)
Definition learn_contract
    (reg : gmap string capability) (contract : TeachingContract)
  : gmap string capability :=
  foldl (λ reg cap, <[unitId contract +:+ "." +:+ cap.1 := cap.2]> reg)
        reg (capabilities contract).

Definition learn (this : Identity) (contracts : list TeachingContract)
  : Identity :=
  {| props := props this;
     _capabilities := foldl learn_contract (_capabilities this) contracts |}.

End Unit.

Section IdentityClass.
Context `{Platform}.

(** The [catch] block shared by [create] and [generate]. *)
Definition catch_to_fail {T : Type} (error : thrown) : Eff (Result.t T) :=
  mret (Result.fail
          (match error with
           | ThrowError e => Error_message e
           | ThrowOther _ => "Unknown error occurred"
           end)
          (match error with
           | ThrowError e => Some e
           | ThrowOther _ => None
           end)
          []).

(** The body of the [try] block of [create]. *)
Definition create_try (config : IdentityConfig.t) : Eff (Result.t Identity) :=
  if falsy (IdentityConfig.privateKeyHex config)
     || falsy (IdentityConfig.publicKeyHex config)
     || falsy (IdentityConfig.did config)
     || falsy (IdentityConfig.alias config)
  then
    mret (Result.fail
            "Required fields: alias, publicKeyHex, privateKeyHex, did" None [])
  else
    (* 1. Prepare cryptographic material *)
    privateKeyPEM ←
      hexPrivateKeyToPem (string_of (IdentityConfig.privateKeyHex config));
    publicKeyPEM ←
      hexToPem (string_of (IdentityConfig.publicKeyHex config)) "ed25519";
    if falsy privateKeyPEM || falsy publicKeyPEM then
      throw_new_Error "Failed to convert keys to PEM format"
    else
    (* 2. Create signer *)
    signer ← Signer_create
      {| sc_privateKeyPEM := string_of privateKeyPEM;
         sc_publicKeyPEM := string_of publicKeyPEM;
         sc_keyType := "ed25519";
         sc_secure := None;
         sc_name := str_or (IdentityConfig.alias config) "unknown"
                    +:+ "-signer" |};
    match signer with
    | None => mret (Result.fail "Failed to create signer from key material"
                                None [])
    | Some signer =>
    (* 3. Create key from signer *)
    key ← Signer_createKey signer;
    match key with
    | None => mret (Result.fail "Failed to create key from signer" None [])
    | Some key =>
    (* 4. Create DID unit from public key *)
    didUnit ← DID_create
      {| dc_publicKeyHex := string_of (IdentityConfig.publicKeyHex config);
         dc_keyType := "Ed25519";
         dc_alias := str_or (IdentityConfig.alias config) "unknown" |};
    match didUnit with
    | None => mret (Result.fail "Failed to reconstruct DID" None [])
    | Some didUnit =>
    (* 5. Create credential unit and learn from key *)
    credentialUnit ← Credential_create;
    contract ← Key_teach key;
    credentialUnit ← Credential_learn credentialUnit [contract];
    dna ← createUnitSchema "identity" "1.0.0";
    createdAt ←
      match IdentityConfig.createdAt config with
      | Some d => mret d
      | None => new_Date
      end;
    mret (Result.success (new_Identity
      {| IdentityProps.dna := dna;
         IdentityProps.alias :=
           str_or (IdentityConfig.alias config) "unknown";
         IdentityProps.did :=
           str_or (IdentityConfig.did config) "did:key:unknown";
         IdentityProps.kid :=
           str_or (IdentityConfig.kid config)
                  (string_of (IdentityConfig.publicKeyHex config));
         IdentityProps.publicKeyHex :=
           string_of (IdentityConfig.publicKeyHex config);
         IdentityProps.privateKeyHex := IdentityConfig.privateKeyHex config;
         IdentityProps.provider :=
           str_or (IdentityConfig.provider config) "did:key";
         IdentityProps.credential :=
           obj_or (IdentityConfig.credential config) ∅;
         IdentityProps.metadata :=
           obj_or (IdentityConfig.metadata config) ∅;
         IdentityProps.createdAt := createdAt;
         IdentityProps.didUnit := didUnit;
         IdentityProps.signerUnit := signer;
         IdentityProps.keyUnit := key;
         IdentityProps.credentialUnit := credentialUnit |}))
    end end end.

(** Create identity from existing data or config. *)
Definition create (config : IdentityConfig.t) : Eff (Result.t Identity) :=
  try_catch (create_try config) catch_to_fail.

(** The body of the [try] block of [generate]. *)
Definition generate_try (alias : string) : Eff (Result.t Identity) :=
  (* 1. Generate cryptographic material in hex format *)
  keyPair ← generateKeyPair "ed25519" "hex";
  match keyPair with
  | None => throw_new_Error "Failed to generate key pair"
  | Some keyPair =>
  (* 2. Convert hex keys to PEM for signer creation *)
  publicKeyPEM ← hexToPem (publicKey keyPair) "ed25519";
  privateKeyPEM ← hexPrivateKeyToPem (privateKey keyPair);
  if falsy publicKeyPEM || falsy privateKeyPEM then
    throw_new_Error "Failed to convert keys to PEM format"
  else
  (* 3. Create signer from the PEM keys *)
  signer ← Signer_create
    {| sc_privateKeyPEM := string_of privateKeyPEM;
       sc_publicKeyPEM := string_of publicKeyPEM;
       sc_keyType := "ed25519";
       sc_secure := Some true;
       sc_name := alias +:+ "-signer" |};
  match signer with
  | None => throw_new_Error "Failed to create signer from key pair"
  | Some signer =>
  key ← Signer_createKey signer;
  match key with
  | None => throw_new_Error "Failed to create key from signer"
  | Some key =>
  (* 4. Get public key in hex format *)
  publicKeyHex ← Signer_getPublicKeyHex signer;
  if falsy publicKeyHex then
    throw_new_Error "Failed to get public key hex"
  else
  (* 5. Use the hex private key we generated *)
  let privateKeyHex := privateKey keyPair in
  (* 6. Create DID from public key *)
  didUnit ← DID_create
    {| dc_publicKeyHex := string_of publicKeyHex;
       dc_keyType := "Ed25519";
       dc_alias := alias |};
  match didUnit with
  | None => throw_new_Error "Failed to create DID from public key"
  | Some didUnit =>
  (* 7. Generate DID from publicKey *)
  didString ← DID_generateKey didUnit;
  if falsy didString then
    throw_new_Error "Failed to generate DID string"
  else
  let didString := string_of didString in
  (* 8. Create credential unit and learn from key *)
  credentialUnit ← Credential_create;
  contract ← Key_teach key;
  credentialUnit ← Credential_learn credentialUnit [contract];
  (* 9. Create self-signed verifiable credential *)
  let subject :=
    {| holder := {| Party.id := didString; Party.name := alias |};
       issuedBy := {| Party.id := didString; Party.name := alias |} |} in
  credentialResult ←
    Credential_issueCredential credentialUnit subject
                               "IdentityCredential" didString;
  if negb (Result.isSuccess credentialResult) then
    mret (Result.fail
            ("Failed to issue identity credential: "
             +:+ default "undefined" (Result.errorMessage credentialResult))
            None [])
  else
  credential ← ([], Result.value credentialResult);
  (* 9. Build identity props *)
  dna ← createUnitSchema "identity" VERSION;
  createdAt ← new_Date;
  let identity := new_Identity
    {| IdentityProps.dna := dna;
       IdentityProps.alias := alias;
       IdentityProps.did := didString;
       IdentityProps.kid := string_of publicKeyHex;
       IdentityProps.publicKeyHex := string_of publicKeyHex;
       IdentityProps.privateKeyHex := Some privateKeyHex;
       IdentityProps.provider := "did:key";
       IdentityProps.credential := credential;
       IdentityProps.metadata := ∅;
       IdentityProps.createdAt := createdAt;
       IdentityProps.didUnit := didUnit;
       IdentityProps.signerUnit := signer;
       IdentityProps.keyUnit := key;
       IdentityProps.credentialUnit := credentialUnit |} in
  (* 10. Teach identity how to sign and create verifiable credentials *)
  c1 ← Signer_teach signer;
  c2 ← Key_teach key;
  c3 ← Credential_teach credentialUnit;
  let identity := learn identity [c1; c2; c3] in
  mret (Result.success identity)
  end end end end.

(** Generate a new identity with fresh cryptographic material. *)
Definition generate (alias : string) : Eff (Result.t Identity) :=
  try_catch (generate_try alias) catch_to_fail.

(** *** Native capabilities *)

Definition sign (this : Identity) (data : string) : Eff jsdata :=
  if can this "signer.sign" then
    execute this "signer.sign" [DString data]
  else
  (* Graceful fallback to native capability *)
  if negb (falsy (IdentityProps.privateKeyHex (props this))) then
    s ← Signer_sign (IdentityProps.signerUnit (props this)) data;
    mret (DString s)
  else
  throw_new_Error
    ("[" +:+ schema_id (IdentityProps.dna (props this))
     +:+ "] Cannot sign - missing 'signer.sign' capability. "
     +:+ "Learn from: Signer.create().teach()").

Definition verify (this : Identity) (data signature : string) : Eff jsdata :=
  if can this "signer.verify" then
    execute this "signer.verify" [DString data; DString signature]
  else
  (* Graceful fallback to native capability *)
  b ← Signer_verify (IdentityProps.signerUnit (props this)) data signature;
  mret (DBool b).

(** *** Projections *)

Definition toJSON (this : Identity) : IIdentity.t :=
  {| IIdentity.alias := IdentityProps.alias (props this);
     IIdentity.did := IdentityProps.did (props this);
     IIdentity.kid := IdentityProps.kid (props this);
     IIdentity.publicKeyHex := IdentityProps.publicKeyHex (props this);
     IIdentity.privateKeyHex := IdentityProps.privateKeyHex (props this);
     IIdentity.provider := IdentityProps.provider (props this);
     IIdentity.credential := IdentityProps.credential (props this);
     IIdentity.metadata := Some (IdentityProps.metadata (props this));
     IIdentity.createdAt := IdentityProps.createdAt (props this) |}.

(** Convert Identity props to domain entity IIdentity. *)
Definition toDomain (this : Identity) : IIdentity.t :=
  {| IIdentity.alias := IdentityProps.alias (props this);
     IIdentity.did := IdentityProps.did (props this);
     IIdentity.kid := IdentityProps.kid (props this);
     IIdentity.publicKeyHex := IdentityProps.publicKeyHex (props this);
     IIdentity.privateKeyHex := IdentityProps.privateKeyHex (props this);
     IIdentity.provider := IdentityProps.provider (props this);
     IIdentity.credential := IdentityProps.credential (props this);
     IIdentity.metadata := Some (IdentityProps.metadata (props this));
     IIdentity.createdAt := IdentityProps.createdAt (props this) |}.

(** Export public identity data:
    [const { privateKeyHex, ...publicData } = this.props]. *)
Definition public (this : Identity) : gmap string propval :=
  delete "privateKeyHex" (IdentityProps_object (props this)).

(** Presents identity. *)
Definition present (this : Identity) : IdentityPresent.t :=
  {| IdentityPresent.did := IdentityProps.did (props this);
     IdentityPresent.publicKeyHex := IdentityProps.publicKeyHex (props this);
     IdentityPresent.credential := IdentityProps.credential (props this) |}.

End IdentityClass.

(** ** Vocabulary of the properties *)

(** A field that is absent, or present and the empty string. *)
Definition absent_or_empty (o : option string) : Prop :=
  o = None ∨ o = Some "".

(** The four required fields of an [IdentityConfig], by name. *)
Definition required_fields : list string :=
  ["alias"; "publicKeyHex"; "privateKeyHex"; "did"].

(** [mentions msg field]: the field name occurs in the message. *)
Definition mentions (msg field : string) : bool :=
  bool_decide (is_Some (String.index 0 field msg)).

(** How a call that returns an [A] ends once its value is wrapped by [f]. *)
Definition outcome_map {A B : Type} (f : A → B) (o : outcome A) : outcome B :=
  match o with
  | Return a => Return (f a)
  | Throw t => Throw t
  end.

(** What the shared [catch] block makes of the outcome of a [try] block. *)
Definition converted {T : Type} (o : outcome (Result.t T)) : Result.t T :=
  match o with
  | Return r => r
  | Throw (ThrowError e) => Result.fail (Error_message e) (Some e) []
  | Throw (ThrowOther _) => Result.fail "Unknown error occurred" None []
  end.

Section Assembled.
Context `{Platform}.

(** The Identity [create] assembles from a config once every unit has
    been rebuilt. *)
Definition assembled
    (config : IdentityConfig.t) (dna : UnitSchema) (didUnit : DID)
    (signer : Signer) (key : Key) (credentialUnit : Credential)
  : Identity :=
  new_Identity
    {| IdentityProps.dna := dna;
       IdentityProps.alias := string_of (IdentityConfig.alias config);
       IdentityProps.did := string_of (IdentityConfig.did config);
       IdentityProps.kid :=
         str_or (IdentityConfig.kid config)
                (string_of (IdentityConfig.publicKeyHex config));
       IdentityProps.publicKeyHex :=
         string_of (IdentityConfig.publicKeyHex config);
       IdentityProps.privateKeyHex := IdentityConfig.privateKeyHex config;
       IdentityProps.provider :=
         str_or (IdentityConfig.provider config) "did:key";
       IdentityProps.credential :=
         obj_or (IdentityConfig.credential config) ∅;
       IdentityProps.metadata := obj_or (IdentityConfig.metadata config) ∅;
       IdentityProps.createdAt :=
         default clock_now (IdentityConfig.createdAt config);
       IdentityProps.didUnit := didUnit;
       IdentityProps.signerUnit := signer;
       IdentityProps.keyUnit := key;
       IdentityProps.credentialUnit := credentialUnit |}.

End Assembled.

(** ** A small platform to run the model on

    The units of a test double: keys are "encoded" by a prefix, a signature
    is the data in brackets, a DID is the public key behind the did:key
    scheme. *)
Module Demo.

Definition pem_of (hex : string) : option string :=
  if decide (hex = "") then None else Some ("PEM:" +:+ hex).

Definition hex_of (pem : string) : string :=
  String.substring 4 (String.length pem - 4) pem.

Definition signature_of (data : string) : string := "sig[" +:+ data +:+ "]".

Definition sign_capability : capability := λ args,
  match args with
  | [DString d] => Return (DString (signature_of d))
  | _ => Throw (ThrowError (new_Error "sign: bad arguments"))
  end.

Definition verify_capability : capability := λ args,
  match args with
  | [DString d; DString s] => Return (DBool (bool_decide (s = signature_of d)))
  | _ => Throw (ThrowError (new_Error "verify: bad arguments"))
  end.

Definition issued (subject : IdentitySubject) (type issuer : string)
  : gmap string jsdata :=
  {[ "issuer" := DString issuer;
     "type" := DString type;
     "holder" := DString (Party.id (holder subject)) ]}.

#[export] Instance platform : Platform := {|
  Signer := SignerConfig;
  Key := string;
  DID := DIDConfig;
  Credential := list string;
  keys_generateKeyPair := λ _ _,
    Return (Some {| publicKey := "a1b2"; privateKey := "c3d4" |});
  keys_hexToPem := λ hex _, Return (pem_of hex);
  keys_hexPrivateKeyToPem := λ hex, Return (pem_of hex);
  keys_Signer_create := λ config, Return (Some config);
  keys_Signer_createKey := λ s, Return (Some (sc_publicKeyPEM s));
  keys_Signer_getPublicKeyHex := λ s, Return (Some (hex_of (sc_publicKeyPEM s)));
  keys_Signer_sign := λ _ data, Return (signature_of data);
  keys_Signer_verify := λ _ data signature,
    Return (bool_decide (signature = signature_of data));
  keys_Signer_teach := λ _,
    Return {| unitId := "signer";
              capabilities := [("sign", sign_capability);
                               ("verify", verify_capability)] |};
  keys_Key_teach := λ _,
    Return {| unitId := "key";
              capabilities := [("verify", verify_capability)] |};
  did_DID_create := λ config, Return (Some config);
  did_DID_generateKey := λ d, Return (Some ("did:key:z" +:+ dc_publicKeyHex d));
  credential_Credential_create := Return [];
  credential_Credential_learn := λ c contracts,
    Return (c ++ (unitId <$> contracts));
  credential_Credential_issueCredential := λ _ subject type issuer,
    Return (Result.success (issued subject type issuer));
  credential_Credential_teach := λ _,
    Return {| unitId := "credential"; capabilities := [] |};
  unit_createUnitSchema := λ id version,
    Return {| schema_id := id; schema_version := version |};
  clock_now := 1700000000000%Z
|}.

(** The config of the validation test: only an alias and a provider. *)
Definition config_without_keys : IdentityConfig.t :=
  {| IdentityConfig.alias := Some "config-user";
     IdentityConfig.did := None;
     IdentityConfig.publicKeyHex := None;
     IdentityConfig.privateKeyHex := None;
     IdentityConfig.kid := None;
     IdentityConfig.provider := Some "did:key";
     IdentityConfig.credential := None;
     IdentityConfig.metadata := None;
     IdentityConfig.createdAt := None |}.

(** A complete config, as in the README. *)
Definition config_bob : IdentityConfig.t :=
  {| IdentityConfig.alias := Some "bob";
     IdentityConfig.did := Some "did:key:zb0b0";
     IdentityConfig.publicKeyHex := Some "b0b0";
     IdentityConfig.privateKeyHex := Some "5ec7";
     IdentityConfig.kid := None;
     IdentityConfig.provider := Some "did:key";
     IdentityConfig.credential := None;
     IdentityConfig.metadata := None;
     IdentityConfig.createdAt := None |}.

Definition signer_bob : SignerConfig :=
  {| sc_privateKeyPEM := "PEM:5ec7";
     sc_publicKeyPEM := "PEM:b0b0";
     sc_keyType := "ed25519";
     sc_secure := None;
     sc_name := "bob-signer" |}.

(** The props [create] builds from [config_bob]. *)
Definition props_bob : IdentityProps.t :=
  {| IdentityProps.dna := {| schema_id := "identity"; schema_version := "1.0.0" |};
     IdentityProps.alias := "bob";
     IdentityProps.did := "did:key:zb0b0";
     IdentityProps.kid := "b0b0";
     IdentityProps.publicKeyHex := "b0b0";
     IdentityProps.privateKeyHex := Some "5ec7";
     IdentityProps.provider := "did:key";
     IdentityProps.credential := ∅;
     IdentityProps.metadata := ∅;
     IdentityProps.createdAt := 1700000000000%Z;
     IdentityProps.didUnit :=
       {| dc_publicKeyHex := "b0b0"; dc_keyType := "Ed25519";
          dc_alias := "bob" |};
     IdentityProps.signerUnit := signer_bob;
     IdentityProps.keyUnit := "PEM:b0b0";
     IdentityProps.credentialUnit := ["key"] |}.

Definition bob : Identity := new_Identity props_bob.

(** Bob after an external unit has taught him a replacement for
    [signer.sign]. *)
Definition replacement_sign : capability := λ _, Return (DString "replaced").

Definition bob_taught : Identity :=
  learn bob [{| unitId := "signer";
                capabilities := [("sign", replacement_sign)] |}].

(** An Identity whose props hold no private key. *)
Definition props_watch_only : IdentityProps.t :=
  {| IdentityProps.dna := IdentityProps.dna props_bob;
     IdentityProps.alias := "bob";
     IdentityProps.did := "did:key:zb0b0";
     IdentityProps.kid := "b0b0";
     IdentityProps.publicKeyHex := "b0b0";
     IdentityProps.privateKeyHex := None;
     IdentityProps.provider := "did:key";
     IdentityProps.credential := ∅;
     IdentityProps.metadata := ∅;
     IdentityProps.createdAt := 1700000000000%Z;
     IdentityProps.didUnit := IdentityProps.didUnit props_bob;
     IdentityProps.signerUnit := signer_bob;
     IdentityProps.keyUnit := "PEM:b0b0";
     IdentityProps.credentialUnit := ["key"] |}.

Definition watch_only : Identity := new_Identity props_watch_only.

(** The Identity [generate] builds for an alias. *)
Definition props_generated (alias : string) : IdentityProps.t :=
  {| IdentityProps.dna :=
       {| schema_id := "identity"; schema_version := "1.0.1" |};
     IdentityProps.alias := alias;
     IdentityProps.did := "did:key:za1b2";
     IdentityProps.kid := "a1b2";
     IdentityProps.publicKeyHex := "a1b2";
     IdentityProps.privateKeyHex := Some "c3d4";
     IdentityProps.provider := "did:key";
     IdentityProps.credential :=
       issued {| holder := {| Party.id := "did:key:za1b2";
                              Party.name := alias |};
                 issuedBy := {| Party.id := "did:key:za1b2";
                                Party.name := alias |} |}
              "IdentityCredential" "did:key:za1b2";
     IdentityProps.metadata := ∅;
     IdentityProps.createdAt := 1700000000000%Z;
     IdentityProps.didUnit :=
       {| dc_publicKeyHex := "a1b2"; dc_keyType := "Ed25519";
          dc_alias := alias |};
     IdentityProps.signerUnit :=
       {| sc_privateKeyPEM := "PEM:c3d4";
          sc_publicKeyPEM := "PEM:a1b2";
          sc_keyType := "ed25519";
          sc_secure := Some true;
          sc_name := alias +:+ "-signer" |};
     IdentityProps.keyUnit := "PEM:a1b2";
     IdentityProps.credentialUnit := ["key"] |}.

Definition generated (alias : string) : Identity :=
  learn (new_Identity (props_generated alias))
        [{| unitId := "signer";
            capabilities := [("sign", sign_capability);
                             ("verify", verify_capability)] |};
         {| unitId := "key";
            capabilities := [("verify", verify_capability)] |};
         {| unitId := "credential"; capabilities := [] |}].

Definition alice : Identity := generated "alice".

(** The Identity [generate] builds for the empty alias. *)
Definition nameless : Identity := generated "".

End Demo.

(** ** The rest of src/result.ts *)

(** A callback handed to a [Result] works on some state of its caller's;
    it may throw. *)
Module ResultMethods.

(** Executes the given callback if this is a success result; returns this
    result. *)
Definition onSuccess {T S : Type}
    (this : Result.t T) (fn : T → S → outcome S) (s : S)
  : outcome (Result.t T * S) :=
  if Result.isSuccess this then
    match Result.value this with
    | Return v =>
        match fn v s with
        | Return s' => Return (this, s')
        | Throw t => Throw t
        end
    | Throw t => Throw t
    end
  else Return (this, s).

(** Executes the given callback if this is a failure result; returns this
    result. *)
Definition onFailure {T S : Type}
    (this : Result.t T)
    (fn : string → option Error → option (list jsdata) → S → outcome S) (s : S)
  : outcome (Result.t T * S) :=
  match Result.isFailure this, Result.error this with
  | true, Some e =>
      match fn (Result.message e) (Result.cause e) (Result.data_ e) s with
      | Return s' => Return (this, s')
      | Throw t => Throw t
      end
  | _, _ => Return (this, s)
  end.

(** [this.isSuccess && this.value === null]. *)
Definition isNull (this : Result.t jsdata) : outcome bool :=
  if Result.isSuccess this then
    match Result.value this with
    | Return v => Return (match v with DNull => true | _ => false end)
    | Throw t => Throw t
    end
  else Return false.

End ResultMethods.

(** ** The rest of the Identity unit *)

(** A credential subject as a positional argument of a capability. *)
Definition Party_data (p : Party.t) : jsdata :=
  DObject {[ "id" := DString (Party.id p); "name" := DString (Party.name p) ]}.

Definition subject_data (subject : IdentitySubject) : jsdata :=
  DObject {[ "holder" := Party_data (holder subject);
             "issuedBy" := Party_data (issuedBy subject) ]}.

(** What [issueCredential] hands back: whatever the learned capability
    returned, or the result it built itself. *)
Inductive Issued : Type :=
  | FromCapability (v : jsdata)
  | FromCredentialUnit (r : Result.t SynetVerifiableCredential).

Section IdentityMethods.
Context `{Platform}.

(** Issue and sign a verifiable credential. *)
Definition issueCredential
    (this : Identity) (subject : IdentitySubject) (type : string)
    (issuer : option string)
  : Eff Issued :=
  if can this "credential.issueCredential" then
    v ← execute this "credential.issueCredential"
          [subject_data subject; DString type;
           DString (str_or issuer (IdentityProps.did (props this)))];
    mret (FromCapability v)
  else
  (* Graceful fallback to native capability *)
  result ← Credential_issueCredential
             (IdentityProps.credentialUnit (props this)) subject type
             (str_or issuer (IdentityProps.did (props this)));
  (* Convert the result type *)
  if negb (Result.isSuccess result) then
    let errorMessage :=
      str_or (Result.errorMessage result) "Failed to issue credential" in
    mret (FromCredentialUnit (Result.fail errorMessage None []))
  else
  value ← ([], Result.value result);
  mret (FromCredentialUnit (Result.success value)).

Definition getDid (this : Identity) : string :=
  IdentityProps.did (props this).

Definition getPublicKey (this : Identity) : string :=
  IdentityProps.publicKeyHex (props this).

(** @deprecated Use [getPublicKey] instead. *)
Definition getPublicKeyHex (this : Identity) : string :=
  IdentityProps.publicKeyHex (props this).

Definition getAlias (this : Identity) : string :=
  IdentityProps.alias (props this).

Definition getKid (this : Identity) : string :=
  IdentityProps.kid (props this).

Definition getPrivateKeyHex (this : Identity) : option string :=
  IdentityProps.privateKeyHex (props this).

Definition getProvider (this : Identity) : string :=
  IdentityProps.provider (props this).

Definition getCredential (this : Identity) : SynetVerifiableCredential :=
  IdentityProps.credential (props this).

Definition getMetadata (this : Identity) : gmap string jsdata :=
  IdentityProps.metadata (props this).

Definition getCreatedAt (this : Identity) : Date :=
  IdentityProps.createdAt (props this).

(** The issuer [issueCredential] passes on: the one it is given, or the
    Identity's own DID when it is given none. *)
Definition issuer_used
    (this : Identity) (issuer : option string) (used : string) : Prop :=
  (issuer = Some used ∧ used ≠ "")
  ∨ (absent_or_empty issuer ∧ used = getDid this).

End IdentityMethods.

(** A config with another DID string. *)
Definition with_did (config : IdentityConfig.t) (did : string)
  : IdentityConfig.t :=
  {| IdentityConfig.alias := IdentityConfig.alias config;
     IdentityConfig.did := Some did;
     IdentityConfig.publicKeyHex := IdentityConfig.publicKeyHex config;
     IdentityConfig.privateKeyHex := IdentityConfig.privateKeyHex config;
     IdentityConfig.kid := IdentityConfig.kid config;
     IdentityConfig.provider := IdentityConfig.provider config;
     IdentityConfig.credential := IdentityConfig.credential config;
     IdentityConfig.metadata := IdentityConfig.metadata config;
     IdentityConfig.createdAt := IdentityConfig.createdAt config |}.

(** ** Kinds of calls *)

(** The calls [create] can make. *)
Definition create_may_call (c : Call) : bool :=
  match c with
  | hexPrivateKeyToPem_call _ | hexToPem_call _ _ | Signer_create_call _
  | Signer_createKey_call | DID_create_call _ | Credential_create_call
  | Key_teach_call | Credential_learn_call _ | createUnitSchema_call _ _
  | new_Date_call => true
  | _ => false
  end.

(** The fixed messages of the failures [create] returns without having
    caught anything. *)
Definition create_messages : list string :=
  ["Required fields: alias, publicKeyHex, privateKeyHex, did";
   "Failed to create signer from key material";
   "Failed to create key from signer";
   "Failed to reconstruct DID"].

(** ** createIdentity (the function that wraps [Identity.create]) *)

#[global] Instance outcome_ret : MRet outcome := λ A a, Return a.

#[global] Instance outcome_bind : MBind outcome := λ A B f o,
  match o with
  | Return a => f a
  | Throw t => Throw t
  end.

(** What [createIdentity] uses beyond the units of the class: the key pair
    generator with its default format, the DID derivation function, and the
    key and credential issuing functions of @synet/credential. Of the
    object [issueVC] resolves to, the function reads [success] and [error]
    and hands the object itself on as the credential. *)
Class IssuingPlatform `{Platform} : Type := {
  IssuingKey : Type;
  IssuedVC : Type;
  keys_generateKeyPair_default : string → outcome (option KeyPair);
  did_createDIDKey : string → string → outcome string;
  credential_Key_create : KeyPair → string → Date → outcome IssuingKey;
  credential_issueVC :
    IssuingKey → IdentitySubject → string → string → outcome IssuedVC;
  vc_success : IssuedVC → bool;
  vc_error : IssuedVC → string;
  vc_object : IssuedVC → SynetVerifiableCredential
}.

Section CreateIdentity.
Context `{IssuingPlatform}.

(** The body of the [try] block. Reading [publicKey] of a key pair that is
    not there is a TypeError. *)
Definition createIdentity_try (alias provider : string) : outcome Identity :=
  (* Generate a new key pair *)
  keyPair ← keys_generateKeyPair_default "ed25519";
  match keyPair with
  | None => Throw (ThrowError (new_Error "Cannot read properties of undefined"))
  | Some keyPair =>
  did ← did_createDIDKey (publicKey keyPair) "Ed25519";
  key ← credential_Key_create keyPair "Ed25519" clock_now;
  let credentialSubject :=
    {| holder := {| Party.id := did; Party.name := alias |};
       issuedBy := {| Party.id := did; Party.name := alias |} |} in
  vc ← credential_issueVC key credentialSubject alias did;
  if negb (vc_success vc) then
    Throw (ThrowError (new_Error (vc_error vc)))
  else
  identityResult ← result (create
    {| IdentityConfig.alias := Some alias;
       IdentityConfig.did := Some did;
       IdentityConfig.publicKeyHex := Some (publicKey keyPair);
       IdentityConfig.privateKeyHex := Some (privateKey keyPair);
       IdentityConfig.kid := Some (publicKey keyPair);
       IdentityConfig.provider := Some provider;
       IdentityConfig.credential := Some (vc_object vc);
       IdentityConfig.metadata := None;
       IdentityConfig.createdAt := None |});
  if Result.isFailure identityResult then
    Throw (ThrowError (new_Error
             (default "" (Result.errorMessage identityResult))))
  else
  Result.value identityResult
  end.

Definition createIdentity (alias provider : string) : outcome Identity :=
  match createIdentity_try alias provider with
  | Return identity => Return identity
  | Throw _ => Throw (ThrowError (new_Error "Failed to create identity"))
  end.

End CreateIdentity.

(** ** A platform whose units can fail *)
Module Faulty.

(** Which steps go wrong; none does in [no_faults]. *)
Record faults : Type := {
  rejects_hex : string → bool;      (* no PEM for this hex *)
  no_key_pair : bool;               (* generateKeyPair returns nothing *)
  no_signer : bool;                 (* Signer.create returns null *)
  issuing_fails : option string     (* issueCredential fails with a message *)
}.

Definition no_faults : faults :=
  {| rejects_hex := λ _, false; no_key_pair := false; no_signer := false;
     issuing_fails := None |}.

Definition platform (f : faults) : Platform := {|
  Signer := SignerConfig;
  Key := string;
  DID := DIDConfig;
  Credential := list string;
  keys_generateKeyPair := λ _ _,
    Return (if no_key_pair f then None
            else Some {| publicKey := "a1b2"; privateKey := "c3d4" |});
  keys_hexToPem := λ hex _,
    Return (if rejects_hex f hex then None else Demo.pem_of hex);
  keys_hexPrivateKeyToPem := λ hex,
    Return (if rejects_hex f hex then None else Demo.pem_of hex);
  keys_Signer_create := λ config,
    Return (if no_signer f then None else Some config);
  keys_Signer_createKey := λ s, Return (Some (sc_publicKeyPEM s));
  keys_Signer_getPublicKeyHex := λ s,
    Return (Some (Demo.hex_of (sc_publicKeyPEM s)));
  keys_Signer_sign := λ _ data, Return (Demo.signature_of data);
  keys_Signer_verify := λ _ data signature,
    Return (bool_decide (signature = Demo.signature_of data));
  keys_Signer_teach := λ _,
    Return {| unitId := "signer";
              capabilities := [("sign", Demo.sign_capability);
                               ("verify", Demo.verify_capability)] |};
  keys_Key_teach := λ _,
    Return {| unitId := "key";
              capabilities := [("verify", Demo.verify_capability)] |};
  did_DID_create := λ config, Return (Some config);
  did_DID_generateKey := λ d, Return (Some ("did:key:z" +:+ dc_publicKeyHex d));
  credential_Credential_create := Return [];
  credential_Credential_learn := λ c contracts,
    Return (c ++ (unitId <$> contracts));
  credential_Credential_issueCredential := λ _ subject type issuer,
    Return (match issuing_fails f with
            | Some msg => Result.fail msg None []
            | None => Result.success (Demo.issued subject type issuer)
            end);
  credential_Credential_teach := λ _,
    Return {| unitId := "credential"; capabilities := [] |};
  unit_createUnitSchema := λ id version,
    Return {| schema_id := id; schema_version := version |};
  clock_now := 1700000000000%Z
|}.

(** Hex keys with a character that is no hex digit are rejected. *)
Definition rejects_zz : faults :=
  {| rejects_hex := λ hex, bool_decide (hex = "zz"); no_key_pair := false;
     no_signer := false; issuing_fails := None |}.

Definition without_signer : faults :=
  {| rejects_hex := λ _, false; no_key_pair := false; no_signer := true;
     issuing_fails := None |}.

Definition without_key_pair : faults :=
  {| rejects_hex := λ _, false; no_key_pair := true; no_signer := false;
     issuing_fails := None |}.

Definition issuer_down : faults :=
  {| rejects_hex := λ _, false; no_key_pair := false; no_signer := false;
     issuing_fails := Some "no signing key" |}.

Definition rejecting_hex : Platform := platform rejects_zz.
Definition signerless : Platform := platform without_signer.
Definition keyless : Platform := platform without_key_pair.
Definition issuerless : Platform := platform issuer_down.

Definition config_zz : IdentityConfig.t :=
  {| IdentityConfig.alias := Some "bob";
     IdentityConfig.did := Some "did:key:zb0b0";
     IdentityConfig.publicKeyHex := Some "zz";
     IdentityConfig.privateKeyHex := Some "5ec7";
     IdentityConfig.kid := None;
     IdentityConfig.provider := None;
     IdentityConfig.credential := None;
     IdentityConfig.metadata := None;
     IdentityConfig.createdAt := None |}.

End Faulty.

(** The issuing functions over the small platform. *)
Module DemoIssuing.

#[export] Instance issuing : @IssuingPlatform Demo.platform := {|
  IssuingKey := KeyPair;
  IssuedVC := bool * SynetVerifiableCredential;
  keys_generateKeyPair_default := λ _,
    Return (Some {| publicKey := "a1b2"; privateKey := "c3d4" |});
  did_createDIDKey := λ hex _, Return ("did:key:z" +:+ hex);
  credential_Key_create := λ keyPair _ _, Return keyPair;
  credential_issueVC := λ _ subject type issuer,
    Return (true, Demo.issued subject type issuer);
  vc_success := fst;
  vc_error := λ _, "issuing failed";
  vc_object := snd
|}.

End DemoIssuing.

(** More Identities over the small platform. *)
Module DemoMore.

Definition issue_capability : capability := λ _, Return (DString "issued").

(** Bob after an external unit has taught him a replacement for
    [credential.issueCredential]. *)
Definition bob_issuer_taught : Identity :=
  learn Demo.bob [{| unitId := "credential";
                     capabilities := [("issueCredential", issue_capability)] |}].

Definition subject_carol : IdentitySubject :=
  {| holder := {| Party.id := "did:key:zca01"; Party.name := "carol" |};
     issuedBy := {| Party.id := "did:key:zb0b0"; Party.name := "bob" |} |}.

End DemoMore.

(** * Properties *)

(** ** Runs on the small platform *)
Module Runs.
Import Demo.

Example create_bob :
create config_bob =
([hexPrivateKeyToPem_call "5ec7"; hexToPem_call "b0b0" "ed25519";
  Signer_create_call signer_bob; Signer_createKey_call;
  DID_create_call (IdentityProps.didUnit props_bob);
  Credential_create_call; Key_teach_call; Credential_learn_call ["key"];
  createUnitSchema_call "identity" "1.0.0"; new_Date_call],
 Return (Result.success bob)).
Proof. vm_compute. reflexivity. Qed.

Example create_without_keys :
create config_without_keys =
([], Return (Result.fail
               "Required fields: alias, publicKeyHex, privateKeyHex, did"
               None [])).
Proof. reflexivity. Qed.

Example sign_bob :
sign bob "hello" = ([Signer_sign_call "hello"], Return (DString "sig[hello]")).
Proof. vm_compute. reflexivity. Qed.

Example sign_bob_taught :
sign bob_taught "hello" =
([execute_call "signer.sign" [DString "hello"]], Return (DString "replaced")).
Proof. vm_compute. reflexivity. Qed.

Example verify_watch_only :
verify watch_only "hello" "sig[hello]" =
([Signer_verify_call "hello" "sig[hello]"], Return (DBool true)).
Proof. vm_compute. reflexivity. Qed.

Example generate_alice_did :
(λ r, match r with
      | Return (Result.success i) =>
          Some (IdentityProps.did (props i), IdentityProps.publicKeyHex (props i),
                can i "signer.sign")
      | _ => None
      end) (result (generate "alice"))
= Some ("did:key:za1b2", "a1b2", true).
Proof. vm_compute. reflexivity. Qed.

Example generate_alice :
result (generate "alice") = Return (Result.success alice).
Proof. vm_compute. reflexivity. Qed.

Example generate_nameless :
result (generate "") = Return (Result.success nameless).
Proof. vm_compute. reflexivity. Qed.

Example create_toDomain_nameless :
create (config_of_domain (toDomain nameless)) =
([], Return (Result.fail
               "Required fields: alias, publicKeyHex, privateKeyHex, did"
               None [])).
Proof. vm_compute. reflexivity. Qed.

Example public_bob_signerUnit :
public bob !! "signerUnit" = Some (PSigner signer_bob).
Proof. vm_compute. reflexivity. Qed.

End Runs.

(** ** Helper facts *)

Lemma falsy_true_iff (o : option string) :
  falsy o = true ↔ o = None ∨ o = Some "".
Proof.
  unfold falsy, truthy. rewrite bool_decide_eq_true.
  destruct o as [s|]; [|naive_solver].
  destruct (decide (s = "")); naive_solver.
Qed.

Lemma falsy_absent_or_empty (o : option string) :
  absent_or_empty o → falsy o = true.
Proof. intros Ho. by apply falsy_true_iff. Qed.

Lemma falsy_false_iff (o : option string) :
  falsy o = false ↔ ∃ s, o = Some s ∧ s ≠ "".
Proof.
  unfold falsy, truthy. rewrite bool_decide_eq_false.
  destruct o as [s|]; [|naive_solver].
  destruct (decide (s = "")); naive_solver.
Qed.

Lemma str_or_truthy (s d : string) : s ≠ "" → str_or (Some s) d = s.
Proof. intros Hs. unfold str_or, truthy. by destruct (decide (s = "")). Qed.

Section Projections.
Context `{Platform}.
Implicit Types this : Identity.

(** C10. [toJSON()] and [toDomain()] return equal records: the same nine
    fields (alias, did, kid, publicKeyHex, privateKeyHex, provider,
    credential, metadata, createdAt) with identical values. *)
Theorem toJSON_eq_toDomain this :
  toJSON this = toDomain this
  ∧ IIdentity_object (toJSON this) = IIdentity_object (toDomain this)
  ∧ dom (IIdentity_object (toDomain this)) =
      list_to_set ["alias"; "did"; "kid"; "publicKeyHex"; "privateKeyHex";
                   "provider"; "credential"; "metadata"; "createdAt"].
Proof.
  split; [reflexivity|]. split; [reflexivity|].
  unfold IIdentity_object. by rewrite dom_list_to_map_L.
Qed.

(** C7. For every Identity, however constructed, the values returned by
    [public()] and by [present()] contain no private-key hex field. *)
Theorem public_present_no_privateKeyHex this :
  public this !! "privateKeyHex" = None
  ∧ IdentityPresent_object (present this) !! "privateKeyHex" = None.
Proof.
  split.
  - unfold public. apply lookup_delete_eq.
  - apply not_elem_of_dom. unfold IdentityPresent_object.
    rewrite dom_list_to_map_L. simpl. set_solver.
Qed.

(** C1, as the code has it. [public()] is the props object without its
    privateKeyHex property, not the domain record without it: every
    remaining field of the domain record is there with its value, and so
    are dna, didUnit, signerUnit, keyUnit and credentialUnit, which the
    domain record does not have. *)
Theorem public_carries_component_units this :
  delete "privateKeyHex" (IIdentity_object (toDomain this)) ⊆ public this
  ∧ dom (public this) =
      dom (delete "privateKeyHex" (IIdentity_object (toDomain this)))
      ∪ list_to_set ["dna"; "didUnit"; "signerUnit"; "keyUnit";
                     "credentialUnit"]
  ∧ public this !! "signerUnit"
      = Some (PSigner (IdentityProps.signerUnit (props this)))
  ∧ public this ≠ delete "privateKeyHex" (IIdentity_object (toDomain this)).
Proof.
  assert (Hsigner : public this !! "signerUnit"
            = Some (PSigner (IdentityProps.signerUnit (props this)))).
  { unfold public, IdentityProps_object. simpl.
    rewrite lookup_delete_ne by done.
    by rewrite !lookup_insert_ne, lookup_insert_eq by done. }
  split_and!.
  - apply map_subseteq_spec. intros k v Hk.
    apply lookup_delete_Some in Hk as [Hne Hk].
    unfold public. rewrite lookup_delete_ne by done.
    unfold IIdentity_object, toDomain in Hk. simpl in Hk.
    repeat (apply lookup_insert_Some in Hk as [[<- <-]|[? Hk]];
            [reflexivity|]).
    done.
  - unfold public, IdentityProps_object, IIdentity_object.
    rewrite !dom_delete_L, !dom_list_to_map_L. simpl. set_solver.
  - exact Hsigner.
  - intros Heq. rewrite Heq in Hsigner.
    unfold IIdentity_object in Hsigner. simpl in Hsigner.
    rewrite lookup_delete_ne in Hsigner by done.
    by rewrite !lookup_insert_ne, lookup_empty in Hsigner by done.
Qed.

End Projections.

(** ** Reasoning about computations *)

Section EffLemmas.
Context {A B : Type}.

Lemma result_pair (l : list Call) (o : outcome A) : result (l, o) = o.
Proof. reflexivity. Qed.

Lemma calls_pair (l : list Call) (o : outcome A) : calls (l, o) = l.
Proof. reflexivity. Qed.

Lemma result_bind_pair (l : list Call) (o : outcome A) (f : A → Eff B) :
  result ((l, o) ≫= f)
  = match o with Return a => result (f a) | Throw t => Throw t end.
Proof.
  unfold result, mbind, Eff_bind.
  destruct o as [a|t]; [|done]. by destruct (f a).
Qed.

Lemma calls_bind_pair (l : list Call) (o : outcome A) (f : A → Eff B) :
  calls ((l, o) ≫= f)
  = l ++ match o with Return a => calls (f a) | Throw t => [] end.
Proof.
  unfold calls, mbind, Eff_bind.
  destruct o as [a|t]; simpl; [|by rewrite app_nil_r]. by destruct (f a).
Qed.

End EffLemmas.

Lemma result_try_catch_to_fail `{Platform} {T : Type} (m : Eff (Result.t T)) :
  result (try_catch m catch_to_fail) = Return (converted (result m)).
Proof. destruct m as [l [r|[e|v]]]; reflexivity. Qed.

Lemma calls_try_catch_to_fail `{Platform} {T : Type} (m : Eff (Result.t T)) :
  calls (try_catch m catch_to_fail) = calls m.
Proof.
  destruct m as [l [r|[e|v]]]; unfold calls; simpl; by rewrite ?app_nil_r.
Qed.

Lemma converted_success {T : Type} (o : outcome (Result.t T)) (v : T) :
  converted o = Result.success v → o = Return (Result.success v).
Proof. destruct o as [r|[e|w]]; simpl; congruence. Qed.

(** Unfold the logged calls down to pairs of a log and an outcome. *)
Ltac unfold_collaborators :=
  unfold generateKeyPair, hexToPem, hexPrivateKeyToPem, Signer_create,
    Signer_createKey, Signer_getPublicKeyHex, Signer_sign, Signer_verify,
    Signer_teach, Key_teach, DID_create, DID_generateKey, Credential_create,
    Credential_learn, Credential_issueCredential, Credential_teach,
    createUnitSchema, new_Date, throw_new_Error, throw, call, mret, Eff_ret
    in *.

(** Follow a computation whose result is known, one statement at a time:
    every call on the way returned, every test went the way that leads to
    the result. *)
Ltac eff_step H :=
  cbv beta in H;
  first
    [ rewrite result_bind_pair in H
    | rewrite result_pair in H
    | match type of H with
      | match ?o with _ => _ end = _ => destruct o eqn:?
      | result (match ?o with _ => _ end) = _ => destruct o eqn:?
      | result (match ?o with _ => _ end ≫= _) = _ => destruct o eqn:?
      end ];
  try discriminate H.

Ltac eff_inv H := repeat eff_step H.

Section Boundary.
Context `{Platform}.

(** C8. [generate] and [create] never throw across their public
    boundary: whatever the [try] block does, the operation returns a
    result; an exception carrying an [Error] becomes a failure with
    that error's message and the error as cause, any other thrown value
    a failure with a fixed message and no cause, and a result the block
    returns is returned as it is. *)
Theorem create_generate_never_throw :
  (∀ config : IdentityConfig.t, ∃ r,
     result (create config) = Return r
     ∧ (∀ r', result (create_try config) = Return r' → r = r')
     ∧ (∀ e, result (create_try config) = Throw (ThrowError e) →
             r = Result.fail (Error_message e) (Some e) [])
     ∧ (∀ v, result (create_try config) = Throw (ThrowOther v) →
             r = Result.fail "Unknown error occurred" None []))
  ∧ (∀ alias : string, ∃ r,
     result (generate alias) = Return r
     ∧ (∀ r', result (generate_try alias) = Return r' → r = r')
     ∧ (∀ e, result (generate_try alias) = Throw (ThrowError e) →
             r = Result.fail (Error_message e) (Some e) [])
     ∧ (∀ v, result (generate_try alias) = Throw (ThrowOther v) →
             r = Result.fail "Unknown error occurred" None [])).
Proof.
  split.
  - intros config. exists (converted (result (create_try config))).
    split; [apply result_try_catch_to_fail|].
    split_and!; intros ? ->; reflexivity.
  - intros alias. exists (converted (result (generate_try alias))).
    split; [apply result_try_catch_to_fail|].
    split_and!; intros ? ->; reflexivity.
Qed.

(** C2. When any one of alias, did, publicKeyHex or privateKeyHex is
    absent or the empty string, [create] returns a failure result, it
    does not throw, its message names each required field, and no
    collaborator was called: nothing of an Identity has been built. *)
Theorem create_rejects_missing_field (config : IdentityConfig.t) :
  absent_or_empty (IdentityConfig.alias config)
  ∨ absent_or_empty (IdentityConfig.did config)
  ∨ absent_or_empty (IdentityConfig.publicKeyHex config)
  ∨ absent_or_empty (IdentityConfig.privateKeyHex config) →
  let msg := "Required fields: alias, publicKeyHex, privateKeyHex, did" in
  create config = ([], Return (Result.fail msg None []))
  ∧ Forall (λ field, mentions msg field = true) required_fields.
Proof.
  intros Hmissing msg. split.
  - unfold create, create_try.
    assert (falsy (IdentityConfig.privateKeyHex config)
            || falsy (IdentityConfig.publicKeyHex config)
            || falsy (IdentityConfig.did config)
            || falsy (IdentityConfig.alias config) = true) as ->; [|done].
    destruct Hmissing as [Hm | [Hm | [Hm | Hm]]];
      rewrite (falsy_absent_or_empty _ Hm), ?orb_true_r; reflexivity.
  - repeat constructor.
Qed.

End Boundary.

Section Delegation.
Context `{Platform}.
Implicit Types this : Identity.

Lemma can_true this (name : string) (f : capability) :
  _capabilities this !! name = Some f → can this name = true.
Proof. intros Hf. unfold can. apply bool_decide_eq_true. by rewrite Hf. Qed.

Lemma can_false this (name : string) :
  _capabilities this !! name = None → can this name = false.
Proof.
  intros Hf. unfold can. apply bool_decide_eq_false. rewrite Hf.
  by intros [? ?].
Qed.

(** C3. When the registry has an entry under "signer.sign", [sign]
    invokes that capability with the call's argument and returns its
    result, and the bound signer is not called; otherwise, when the
    props hold a private-key hex, the bound signer's [sign] is invoked
    directly with the same data. *)
Theorem sign_dispatch this (data : string) :
  (∀ f, _capabilities this !! "signer.sign" = Some f →
     sign this data
     = ([execute_call "signer.sign" [DString data]], f [DString data])
     ∧ ∀ d, Signer_sign_call d ∉ calls (sign this data))
  ∧ (∀ privateKeyHex,
     _capabilities this !! "signer.sign" = None →
     IdentityProps.privateKeyHex (props this) = Some privateKeyHex →
     privateKeyHex ≠ "" →
     sign this data
     = ([Signer_sign_call data],
        outcome_map DString
          (keys_Signer_sign (IdentityProps.signerUnit (props this)) data))).
Proof.
  split.
  - intros f Hf.
    assert (sign this data
            = ([execute_call "signer.sign" [DString data]],
               f [DString data])) as Hsign.
    { unfold sign, execute. by rewrite (can_true _ _ _ Hf), Hf. }
    split; [done|]. intros d. rewrite Hsign. unfold calls. simpl.
    by intros ?%list_elem_of_singleton.
  - intros privateKeyHex Hnone Hkey Hne. unfold sign.
    assert (falsy (IdentityProps.privateKeyHex (props this)) = false) as ->.
    { apply falsy_false_iff. eauto. }
    rewrite (can_false _ _ Hnone).
    simpl. unfold Signer_sign, call, mbind, Eff_bind.
    by destruct (keys_Signer_sign _ _).
Qed.

(** C4, amended. With no learned override and no private-key hex, [sign]
    raises the capability-missing error directly. [verify] has no such
    guard: with no learned override it calls the bound signer's
    [verify] with the same data and signature and ends as that call
    ends, whether or not the props hold a private key. *)
Theorem sign_throws_verify_falls_back this (data signature : string) :
  (_capabilities this !! "signer.sign" = None →
   absent_or_empty (IdentityProps.privateKeyHex (props this)) →
   sign this data
   = ([], Throw (ThrowError (new_Error
        ("[" +:+ schema_id (IdentityProps.dna (props this))
         +:+ "] Cannot sign - missing 'signer.sign' capability. "
         +:+ "Learn from: Signer.create().teach()")))))
  ∧ (_capabilities this !! "signer.verify" = None →
     verify this data signature
     = ([Signer_verify_call data signature],
        outcome_map DBool
          (keys_Signer_verify (IdentityProps.signerUnit (props this))
                              data signature))).
Proof.
  split.
  - intros Hnone Hkey. unfold sign.
    by rewrite (can_false _ _ Hnone), (falsy_absent_or_empty _ Hkey).
  - intros Hnone. unfold verify. rewrite (can_false _ _ Hnone).
    unfold Signer_verify, call, mbind, Eff_bind.
    by destruct (keys_Signer_verify _ _ _).
Qed.

End Delegation.

Section Lifecycle.
Context `{Platform}.

Lemma orb4_false (a b c d : bool) :
  a || b || c || d = false → a = false ∧ b = false ∧ c = false ∧ d = false.
Proof. destruct a, b, c, d; naive_solver. Qed.

(** What a successful [generate] went through. *)
Lemma generate_success_inv (alias : string) (i : Identity) :
  result (generate alias) = Return (Result.success i) →
  ∃ keyPair publicKeyPEM privateKeyPEM signer key publicKeyHex didUnit
    didString c0 contract credentialUnit credential dna c1 c3,
    keys_generateKeyPair "ed25519" "hex" = Return (Some keyPair)
    ∧ keys_hexToPem (publicKey keyPair) "ed25519" = Return (Some publicKeyPEM)
    ∧ publicKeyPEM ≠ ""
    ∧ keys_hexPrivateKeyToPem (privateKey keyPair)
        = Return (Some privateKeyPEM)
    ∧ privateKeyPEM ≠ ""
    ∧ keys_Signer_create
        {| sc_privateKeyPEM := privateKeyPEM;
           sc_publicKeyPEM := publicKeyPEM;
           sc_keyType := "ed25519";
           sc_secure := Some true;
           sc_name := alias +:+ "-signer" |} = Return (Some signer)
    ∧ keys_Signer_createKey signer = Return (Some key)
    ∧ keys_Signer_getPublicKeyHex signer = Return (Some publicKeyHex)
    ∧ publicKeyHex ≠ ""
    ∧ did_DID_create
        {| dc_publicKeyHex := publicKeyHex;
           dc_keyType := "Ed25519";
           dc_alias := alias |} = Return (Some didUnit)
    ∧ did_DID_generateKey didUnit = Return (Some didString)
    ∧ didString ≠ ""
    ∧ credential_Credential_create = Return c0
    ∧ keys_Key_teach key = Return contract
    ∧ credential_Credential_learn c0 [contract] = Return credentialUnit
    ∧ credential_Credential_issueCredential credentialUnit
        {| holder := {| Party.id := didString; Party.name := alias |};
           issuedBy := {| Party.id := didString; Party.name := alias |} |}
        "IdentityCredential" didString
        = Return (Result.success credential)
    ∧ unit_createUnitSchema "identity" VERSION = Return dna
    ∧ keys_Signer_teach signer = Return c1
    ∧ credential_Credential_teach credentialUnit = Return c3
    ∧ i = learn (new_Identity
          {| IdentityProps.dna := dna;
             IdentityProps.alias := alias;
             IdentityProps.did := didString;
             IdentityProps.kid := publicKeyHex;
             IdentityProps.publicKeyHex := publicKeyHex;
             IdentityProps.privateKeyHex := Some (privateKey keyPair);
             IdentityProps.provider := "did:key";
             IdentityProps.credential := credential;
             IdentityProps.metadata := ∅;
             IdentityProps.createdAt := clock_now;
             IdentityProps.didUnit := didUnit;
             IdentityProps.signerUnit := signer;
             IdentityProps.keyUnit := key;
             IdentityProps.credentialUnit := credentialUnit |})
          [c1; contract; c3].
Proof.
  unfold generate. rewrite result_try_catch_to_fail. intros Hg.
  injection Hg as Hg. apply converted_success in Hg.
  unfold generate_try in Hg. unfold_collaborators.
  eff_inv Hg. subst.
  repeat match goal with
  | Hf : _ || _ = false |- _ => apply orb_false_elim in Hf as [? ?]
  | Hf : falsy _ = false |- _ => apply falsy_false_iff in Hf as (? & -> & ?)
  end.
  match goal with
  | Hv : Result.value ?r = Return _ |- _ => destruct r; simplify_eq/=
  end.
  eexists _, _, _, _, _, _, _, _. eexists _, _, _, _, _, _, _.
  split_and!; eauto.
Qed.

(** C9. After a successful [generate(alias)], the credential stored in
    the Identity is the one the credential unit issued for the newly
    derived DID string as issuer, with a subject whose holder id and
    issuedBy id are both that DID string and whose two names are both
    the alias. *)
Theorem generate_credential_self_issued (alias : string) (i : Identity) :
  result (generate alias) = Return (Result.success i) →
  let didString := IdentityProps.did (props i) in
  let subject :=
    {| holder := {| Party.id := didString; Party.name := alias |};
       issuedBy := {| Party.id := didString; Party.name := alias |} |} in
  did_DID_generateKey (IdentityProps.didUnit (props i))
    = Return (Some didString)
  ∧ Credential_issueCredential_call subject "IdentityCredential" didString
      ∈ calls (generate alias)
  ∧ credential_Credential_issueCredential
      (IdentityProps.credentialUnit (props i))
      subject "IdentityCredential" didString
    = Return (Result.success (IdentityProps.credential (props i))).
Proof.
  intros Hg.
  destruct (generate_success_inv _ _ Hg)
    as (keyPair & publicKeyPEM & privateKeyPEM & signer & key & publicKeyHex
        & didUnit & didString & c0 & contract & credentialUnit & credential
        & dna & c1 & c3 & Hkp & Hpub & ? & Hpriv & ? & Hsigner & Hkey
        & Hhex & ? & Hdid & Hgen & ? & Hc0 & Hteach & Hlearn & Hissue
        & Hdna & Hc1 & Hc3 & ->).
  simpl. split_and!; [done| |done].
  unfold generate. rewrite calls_try_catch_to_fail.
  unfold generate_try. unfold_collaborators.
  rewrite calls_bind_pair, Hkp.
  rewrite calls_bind_pair, Hpub.
  rewrite calls_bind_pair, Hpriv.
  assert (falsy (Some publicKeyPEM) || falsy (Some privateKeyPEM) = false)
    as ->.
  { apply orb_false_intro; apply falsy_false_iff; eauto. }
  simpl string_of.
  rewrite calls_bind_pair, Hsigner.
  rewrite calls_bind_pair, Hkey.
  rewrite calls_bind_pair, Hhex.
  assert (falsy (Some publicKeyHex) = false) as ->.
  { apply falsy_false_iff; eauto. }
  simpl string_of.
  rewrite calls_bind_pair, Hdid.
  rewrite calls_bind_pair, Hgen.
  assert (falsy (Some didString) = false) as ->.
  { apply falsy_false_iff; eauto. }
  simpl string_of.
  rewrite calls_bind_pair, Hc0.
  rewrite calls_bind_pair, Hteach.
  rewrite calls_bind_pair, Hlearn.
  rewrite calls_bind_pair.
  set_solver.
Qed.

(** [create] succeeds exactly when the four required fields are there
    and every unit can be rebuilt from them. *)
Lemma create_success_iff (config : IdentityConfig.t) (i : Identity) :
  result (create config) = Return (Result.success i) ↔
  ∃ alias did publicKeyHex privateKeyHex privateKeyPEM publicKeyPEM
    signer key didUnit c0 contract credentialUnit dna,
    IdentityConfig.alias config = Some alias ∧ alias ≠ ""
    ∧ IdentityConfig.did config = Some did ∧ did ≠ ""
    ∧ IdentityConfig.publicKeyHex config = Some publicKeyHex
    ∧ publicKeyHex ≠ ""
    ∧ IdentityConfig.privateKeyHex config = Some privateKeyHex
    ∧ privateKeyHex ≠ ""
    ∧ keys_hexPrivateKeyToPem privateKeyHex = Return (Some privateKeyPEM)
    ∧ privateKeyPEM ≠ ""
    ∧ keys_hexToPem publicKeyHex "ed25519" = Return (Some publicKeyPEM)
    ∧ publicKeyPEM ≠ ""
    ∧ keys_Signer_create
        {| sc_privateKeyPEM := privateKeyPEM;
           sc_publicKeyPEM := publicKeyPEM;
           sc_keyType := "ed25519";
           sc_secure := None;
           sc_name := alias +:+ "-signer" |} = Return (Some signer)
    ∧ keys_Signer_createKey signer = Return (Some key)
    ∧ did_DID_create
        {| dc_publicKeyHex := publicKeyHex;
           dc_keyType := "Ed25519";
           dc_alias := alias |} = Return (Some didUnit)
    ∧ credential_Credential_create = Return c0
    ∧ keys_Key_teach key = Return contract
    ∧ credential_Credential_learn c0 [contract] = Return credentialUnit
    ∧ unit_createUnitSchema "identity" "1.0.0" = Return dna
    ∧ i = assembled config dna didUnit signer key credentialUnit.
Proof.
  unfold create. rewrite result_try_catch_to_fail. split.
  - intros Hc. injection Hc as Hc. apply converted_success in Hc.
    unfold create_try in Hc. unfold_collaborators.
    destruct (_ || _) eqn:Hgate in Hc; [discriminate Hc|].
    apply orb4_false in Hgate as (Hpriv & Hpub & Hdid & Halias).
    apply falsy_false_iff in Hpriv as (privateKeyHex & Hpriv & ?).
    apply falsy_false_iff in Hpub as (publicKeyHex & Hpub & ?).
    apply falsy_false_iff in Hdid as (did & Hdid & ?).
    apply falsy_false_iff in Halias as (alias & Halias & ?).
    rewrite Hpriv, Hpub, Halias, ?str_or_truthy in Hc by done.
    simpl string_of in Hc.
    eff_inv Hc; subst.
    all: repeat match goal with
      | Hf : _ || _ = false |- _ => apply orb_false_elim in Hf as [? ?]
      | Hf : falsy _ = false |- _ =>
          apply falsy_false_iff in Hf as (? & -> & ?)
      end.
    all: injection Hc as <-.
    all: eexists alias, did, publicKeyHex, privateKeyHex, _, _, _, _.
    all: eexists _, _, _, _, _.
    all: split_and!; eauto.
    all: unfold assembled; rewrite Hpriv, Hpub, Hdid, Halias.
    all: rewrite ?str_or_truthy by done.
    all: match goal with
         | Hd : IdentityConfig.createdAt _ = _ |- _ => by rewrite Hd
         end.
  - intros (alias & did & publicKeyHex & privateKeyHex & privateKeyPEM
            & publicKeyPEM & signer & key & didUnit & c0 & contract
            & credentialUnit & dna & Halias & ? & Hdid & ? & Hpub & ?
            & Hpriv & ? & HprivPEM & ? & HpubPEM & ? & Hsigner & Hkey
            & HdidUnit & Hc0 & Hteach & Hlearn & Hdna & ->).
    f_equal. unfold create_try. unfold_collaborators.
    assert (∀ s, s ≠ "" → falsy (Some s) = false) as Hfalsy.
    { intros s Hs. apply falsy_false_iff. eauto. }
    rewrite Hpriv, Hpub, Hdid, Halias, !Hfalsy by done.
    simpl orb. simpl string_of. cbv beta iota.
    rewrite result_bind_pair, HprivPEM.
    rewrite result_bind_pair, HpubPEM.
    rewrite !Hfalsy by done. simpl orb. simpl string_of. cbv beta iota.
    rewrite !str_or_truthy by done.
    rewrite result_bind_pair, Hsigner.
    rewrite result_bind_pair, Hkey.
    rewrite result_bind_pair, HdidUnit.
    rewrite result_bind_pair, Hc0.
    rewrite result_bind_pair, Hteach.
    rewrite result_bind_pair, Hlearn.
    rewrite result_bind_pair, Hdna.
    unfold assembled. rewrite Hpriv, Hpub, Hdid, Halias. simpl.
    destruct (IdentityConfig.createdAt config); reflexivity.
Qed.

(** [create] makes no call to the credential unit's [issueCredential],
    whatever the config and however the other calls end. *)
Lemma create_never_issues
    (config : IdentityConfig.t) (subject : IdentitySubject)
    (type issuer : string) :
  Credential_issueCredential_call subject type issuer ∉ calls (create config).
Proof.
  unfold create. rewrite calls_try_catch_to_fail.
  unfold create_try. unfold_collaborators.
  repeat (cbv beta iota;
          first [ rewrite calls_bind_pair
                | rewrite calls_pair
                | match goal with
                  | |- context [match ?o with _ => _ end] => destruct o
                  end ]).
  all: simpl; intros Hin.
  all: repeat (apply elem_of_cons in Hin as [Hin|Hin]; [discriminate Hin|]).
  all: by apply elem_of_nil in Hin.
Qed.

(** C6. For every config [create] accepts, the record takes did and
    publicKeyHex verbatim from the config; kid is the config's
    publicKeyHex when the config has no kid; the credential is the
    config's credential, or the empty object when the config has none;
    and no credential is issued on the way. *)
Theorem create_takes_config_verbatim
    (config : IdentityConfig.t) (i : Identity) :
  result (create config) = Return (Result.success i) →
  IdentityConfig.did config = Some (IdentityProps.did (props i))
  ∧ IdentityConfig.publicKeyHex config
      = Some (IdentityProps.publicKeyHex (props i))
  ∧ (IdentityConfig.kid config = None →
       IdentityProps.kid (props i) = IdentityProps.publicKeyHex (props i))
  ∧ (∀ kid, IdentityConfig.kid config = Some kid → kid ≠ "" →
       IdentityProps.kid (props i) = kid)
  ∧ (∀ credential, IdentityConfig.credential config = Some credential →
       IdentityProps.credential (props i) = credential)
  ∧ (IdentityConfig.credential config = None →
       IdentityProps.credential (props i) = ∅)
  ∧ (∀ subject type issuer,
       Credential_issueCredential_call subject type issuer
         ∉ calls (create config)).
Proof.
  intros Hc. apply create_success_iff in Hc
    as (alias & did & publicKeyHex & privateKeyHex & privateKeyPEM
        & publicKeyPEM & signer & key & didUnit & c0 & contract
        & credentialUnit & dna & Halias & ? & Hdid & ? & Hpub & ?
        & Hpriv & ? & _ & _ & _ & _ & _ & _ & _ & _ & _ & _ & _ & ->).
  simpl. rewrite Hdid, Hpub. simpl. split_and!; try done.
  - by intros ->.
  - intros kid -> ?. by apply str_or_truthy.
  - by intros credential ->.
  - by intros ->.
  - apply create_never_issues.
Qed.

(** C5, amended. For an Identity produced by a successful
    [generate(alias)] with a non-empty alias and a non-empty private-key
    hex, [create(toDomain())] succeeds with the same DID string and the
    same public-key hex, provided the units can be rebuilt from the
    stored keys: the stored public key converts to PEM, a signer and its
    key are created from the two PEM keys, the fresh credential unit
    learns from that key, and the unit schema is created. *)
Theorem create_toDomain_of_generated
    (alias : string) (i : Identity)
    (privateKeyHex privateKeyPEM publicKeyPEM : string)
    (signer : Signer) (key : Key) (c0 : Credential)
    (contract : TeachingContract) (credentialUnit : Credential)
    (dna : UnitSchema) :
  result (generate alias) = Return (Result.success i) →
  alias ≠ "" →
  IdentityProps.privateKeyHex (props i) = Some privateKeyHex →
  privateKeyHex ≠ "" →
  keys_hexPrivateKeyToPem privateKeyHex = Return (Some privateKeyPEM) →
  keys_hexToPem (IdentityProps.publicKeyHex (props i)) "ed25519"
    = Return (Some publicKeyPEM) →
  publicKeyPEM ≠ "" →
  keys_Signer_create
    {| sc_privateKeyPEM := privateKeyPEM;
       sc_publicKeyPEM := publicKeyPEM;
       sc_keyType := "ed25519";
       sc_secure := None;
       sc_name := alias +:+ "-signer" |} = Return (Some signer) →
  keys_Signer_createKey signer = Return (Some key) →
  credential_Credential_create = Return c0 →
  keys_Key_teach key = Return contract →
  credential_Credential_learn c0 [contract] = Return credentialUnit →
  unit_createUnitSchema "identity" "1.0.0" = Return dna →
  ∃ i',
    result (create (config_of_domain (toDomain i)))
      = Return (Result.success i')
    ∧ IdentityProps.did (props i') = IdentityProps.did (props i)
    ∧ IdentityProps.publicKeyHex (props i')
        = IdentityProps.publicKeyHex (props i).
Proof.
  intros Hg Halias Hpriv HprivNe HprivPEM HpubPEM HpubNe Hsigner Hkey Hc0
         Hteach Hlearn Hdna.
  destruct (generate_success_inv _ _ Hg)
    as (keyPair & publicKeyPEM0 & privateKeyPEM0 & signer0 & key0
        & publicKeyHex & didUnit & didString & c00 & contract0
        & credentialUnit0 & credential & dna0 & c1 & c3 & Hkp & _ & _
        & HprivPEM0 & HprivPEM0Ne & _ & _ & _ & HhexNe & HdidUnit & _
        & HdidNe & _ & _ & _ & _ & _ & _ & _ & Hi).
  exists (assembled (config_of_domain (toDomain i))
                    dna didUnit signer key credentialUnit).
  subst i. simpl in Hpriv, HpubPEM. injection Hpriv as <-.
  rewrite HprivPEM0 in HprivPEM. injection HprivPEM as <-.
  split; [|split; reflexivity].
  apply create_success_iff.
  exists alias, didString, publicKeyHex, (privateKey keyPair),
         privateKeyPEM0, publicKeyPEM, signer, key.
  exists didUnit, c0, contract, credentialUnit, dna.
  split_and!; done.
Qed.

End Lifecycle.

(** * The properties at work on the small platform *)
Module Checks.
Import Demo.

(** [create] on the config of the validation test. *)
Lemma create_rejects_missing_field_witness :
(absent_or_empty (IdentityConfig.alias config_without_keys)
 ∨ absent_or_empty (IdentityConfig.did config_without_keys)
 ∨ absent_or_empty (IdentityConfig.publicKeyHex config_without_keys)
 ∨ absent_or_empty (IdentityConfig.privateKeyHex config_without_keys))
∧ create config_without_keys
  = ([], Return (Result.fail
                   "Required fields: alias, publicKeyHex, privateKeyHex, did"
                   None [])).
Proof.
assert (Hmissing :
          absent_or_empty (IdentityConfig.alias config_without_keys)
          ∨ absent_or_empty (IdentityConfig.did config_without_keys)
          ∨ absent_or_empty (IdentityConfig.publicKeyHex config_without_keys)
          ∨ absent_or_empty (IdentityConfig.privateKeyHex config_without_keys)).
{ right. left. left. reflexivity. }
split; [exact Hmissing|].
exact (proj1 (create_rejects_missing_field config_without_keys Hmissing)).
Defined.

(** [sign] on Bob after he was taught a replacement, and on Bob as
  created. *)
Lemma sign_dispatch_witness :
sign bob_taught "hello"
= ([execute_call "signer.sign" [DString "hello"]], Return (DString "replaced"))
∧ sign bob "hello"
  = ([Signer_sign_call "hello"], Return (DString "sig[hello]")).
Proof.
split.
- refine (proj1 (proj1 (sign_dispatch bob_taught "hello")
                       replacement_sign _)).
  vm_compute. reflexivity.
- refine (proj2 (sign_dispatch bob "hello") "5ec7" _ _ _).
  + reflexivity.
  + reflexivity.
  + discriminate.
Defined.

(** [sign] and [verify] on an Identity without a private key. *)
Lemma sign_throws_verify_falls_back_witness :
sign watch_only "hello"
= ([], Throw (ThrowError (new_Error
     "[identity] Cannot sign - missing 'signer.sign' capability. Learn from: Signer.create().teach()")))
∧ verify watch_only "hello" "sig[hello]"
  = ([Signer_verify_call "hello" "sig[hello]"], Return (DBool true)).
Proof.
split.
- refine (proj1 (sign_throws_verify_falls_back watch_only "hello" "sig[hello]")
                _ _).
  + reflexivity.
  + left. reflexivity.
- refine (proj2 (sign_throws_verify_falls_back watch_only "hello" "sig[hello]")
                _).
  reflexivity.
Defined.

(** C4 as stated fails: on an Identity with no override and no private
  key, [verify] does not raise; it returns what the bound signer's
  [verify] returns. *)
Lemma verify_without_private_key_returns :
¬ (∀ (P : Platform) (this : Identity) (data signature : string),
     _capabilities this !! "signer.sign" = None →
     _capabilities this !! "signer.verify" = None →
     absent_or_empty (IdentityProps.privateKeyHex (props this)) →
     (∃ t, result (sign this data) = Throw t)
     ∧ (∃ t, result (verify this data signature) = Throw t)).
Proof.
intros Hclaim.
destruct (Hclaim platform watch_only "hello" "sig[hello]"
                 eq_refl eq_refl (or_introl eq_refl)) as [_ [t Ht]].
vm_compute in Ht. discriminate Ht.
Qed.

(** The round trip of the Identity generated for "alice". *)
Lemma create_toDomain_of_generated_witness :
result (generate "alice") = Return (Result.success alice)
∧ ∃ i',
    result (create (config_of_domain (toDomain alice)))
      = Return (Result.success i')
    ∧ IdentityProps.did (props i') = IdentityProps.did (props alice)
    ∧ IdentityProps.publicKeyHex (props i')
        = IdentityProps.publicKeyHex (props alice).
Proof.
assert (Hg : result (generate "alice") = Return (Result.success alice)).
{ vm_compute. reflexivity. }
split; [exact Hg|].
refine (create_toDomain_of_generated
          "alice" alice "c3d4" "PEM:c3d4" "PEM:a1b2"
          {| sc_privateKeyPEM := "PEM:c3d4";
             sc_publicKeyPEM := "PEM:a1b2";
             sc_keyType := "ed25519";
             sc_secure := None;
             sc_name := "alice-signer" |}
          "PEM:a1b2" []
          {| unitId := "key";
             capabilities := [("verify", verify_capability)] |}
          ["key"]
          {| schema_id := "identity"; schema_version := "1.0.0" |}
          Hg _ _ _ _ _ _ _ _ _ _ _ _).
all: first [ reflexivity | discriminate ].
Defined.

(** C5 as stated fails: [generate] accepts the empty alias, and [create]
  rejects the domain record of the Identity it built. *)
Lemma create_toDomain_rejects_empty_alias :
¬ (∀ (P : Platform) (alias : string) (i : Identity),
     result (generate alias) = Return (Result.success i) →
     ∃ i',
       result (create (config_of_domain (toDomain i)))
         = Return (Result.success i')
       ∧ IdentityProps.did (props i') = IdentityProps.did (props i)
       ∧ IdentityProps.publicKeyHex (props i')
           = IdentityProps.publicKeyHex (props i)).
Proof.
intros Hclaim.
destruct (Hclaim platform "" nameless Runs.generate_nameless)
  as (i' & Hi' & _).
vm_compute in Hi'. discriminate Hi'.
Qed.

(** [create] on a complete config. *)
Lemma create_takes_config_verbatim_witness :
result (create config_bob) = Return (Result.success bob)
∧ IdentityConfig.did config_bob = Some (IdentityProps.did (props bob))
∧ IdentityConfig.publicKeyHex config_bob
    = Some (IdentityProps.publicKeyHex (props bob))
∧ IdentityProps.kid (props bob) = IdentityProps.publicKeyHex (props bob)
∧ IdentityProps.credential (props bob) = ∅.
Proof.
assert (Hc : result (create config_bob) = Return (Result.success bob)).
{ vm_compute. reflexivity. }
destruct (create_takes_config_verbatim config_bob bob Hc)
  as (Hdid & Hpub & Hkid & _ & _ & Hcredential & _).
split_and!.
- exact Hc.
- exact Hdid.
- exact Hpub.
- exact (Hkid eq_refl).
- exact (Hcredential eq_refl).
Defined.

(** The credential of the Identity generated for "alice". *)
Lemma generate_credential_self_issued_witness :
result (generate "alice") = Return (Result.success alice)
∧ did_DID_generateKey (IdentityProps.didUnit (props alice))
    = Return (Some "did:key:za1b2")
∧ Credential_issueCredential_call
    {| holder := {| Party.id := "did:key:za1b2"; Party.name := "alice" |};
       issuedBy := {| Party.id := "did:key:za1b2"; Party.name := "alice" |} |}
    "IdentityCredential" "did:key:za1b2"
    ∈ calls (generate "alice")
∧ credential_Credential_issueCredential
    (IdentityProps.credentialUnit (props alice))
    {| holder := {| Party.id := "did:key:za1b2"; Party.name := "alice" |};
       issuedBy := {| Party.id := "did:key:za1b2"; Party.name := "alice" |} |}
    "IdentityCredential" "did:key:za1b2"
  = Return (Result.success (IdentityProps.credential (props alice))).
Proof.
assert (Hg : result (generate "alice") = Return (Result.success alice)).
{ vm_compute. reflexivity. }
split; [exact Hg|].
exact (generate_credential_self_issued "alice" alice Hg).
Defined.

End Checks.

(** * Further properties of the code *)

(** ** Helper facts *)

Lemma str_or_ne (o : option string) (d : string) : d ≠ "" → str_or o d ≠ "".
Proof.
  intros Hd. unfold str_or, truthy. destruct o as [s|]; [|done].
  by destruct (decide (s = "")).
Qed.

Lemma str_or_absent (o : option string) (d : string) :
  absent_or_empty o → str_or o d = d.
Proof. by intros [-> | ->]. Qed.

Lemma falsy_Some_ne (s : string) : s ≠ "" → falsy (Some s) = false.
Proof. intros Hs. apply falsy_false_iff. eauto. Qed.

(** Follow every way a computation can go. *)
Ltac eff_all H :=
  repeat (cbv beta iota in H;
          first [ rewrite result_bind_pair in H
                | rewrite result_pair in H
                | match type of H with
                  | context [match ?o with _ => _ end] => destruct o eqn:?
                  end ]).

(** Run one logged call whose outcome is known. *)
Ltac run_call Heq :=
  rewrite calls_bind_pair, Heq; cbv beta iota; simpl string_of.

(** ** The Result envelope *)

(** X1. A Result is a success or a failure, never both: on a success the
    value getter returns the value and there is no error, message or
    cause; on a failure the value getter throws "Cannot get value from a
    failed result", the message and the cause are those given to [fail],
    and the context data is undefined exactly when none was given. *)
Theorem Result_value_or_error {T : Type} (r : Result.t T) :
  (Result.isSuccess r = true ∧ Result.isFailure r = false
   ∧ (∃ v, r = Result.success v ∧ Result.value r = Return v)
   ∧ Result.error r = None ∧ Result.errorMessage r = None
   ∧ Result.errorCause r = None)
  ∨ (Result.isSuccess r = false ∧ Result.isFailure r = true
     ∧ Result.value r
       = Throw (ThrowError (new_Error "Cannot get value from a failed result"))
     ∧ ∃ m c rest, r = Result.fail m c rest
         ∧ Result.errorMessage r = Some m ∧ Result.errorCause r = c
         ∧ (Result.data_ <$> Result.error r)
           = Some (if decide (rest = []) then None else Some rest)).
Proof.
  destruct r as [v|m c rest].
  - left. split_and!; try done. by exists v.
  - right. split_and!; try done. exists m, c, rest. split_and!; try done.
    simpl. f_equal. destruct rest; simpl; by repeat case_decide.
Qed.

(** X2. Of [onSuccess] and [onFailure] exactly one runs its callback:
    on a success [onSuccess] calls it with the value and [onFailure] does
    nothing, on a failure [onFailure] calls it with the message, the cause
    and the context data and [onSuccess] does nothing; either returns the
    result it was called on, unless the callback throws. *)
Theorem onSuccess_onFailure_exclusive {T S : Type}
    (f : T → S → outcome S)
    (g : string → option Error → option (list jsdata) → S → outcome S)
    (s : S) :
  (∀ v,
     ResultMethods.onSuccess (Result.success v) f s
     = outcome_map (pair (Result.success v)) (f v s)
     ∧ ResultMethods.onFailure (Result.success v) g s
       = Return (Result.success v, s))
  ∧ (∀ m c rest,
     let r : Result.t T := Result.fail m c rest in
     ResultMethods.onSuccess r f s = Return (r, s)
     ∧ ResultMethods.onFailure r g s
       = outcome_map (pair r)
           (g m c (if decide (rest = []) then None else Some rest) s)).
Proof.
  split.
  - intros v. split; [|done].
    unfold ResultMethods.onSuccess. simpl. by destruct (f v s).
  - intros m c rest r. subst r. split; [done|].
    unfold ResultMethods.onFailure. simpl.
    assert ((if decide (0 < length rest) then Some rest else None)
            = (if decide (rest = []) then None else Some rest)) as ->.
    { destruct rest; simpl; repeat case_decide; try done; lia. }
    by destruct (g _ _ _ _).
Qed.

(** X3. [isNull] never throws: on a failed result it answers false without
    touching the value getter, on a success it tells whether the value is
    null. *)
Theorem isNull_never_throws (r : Result.t jsdata) :
  ∃ b, ResultMethods.isNull r = Return b
       ∧ (b = true ↔ r = Result.success DNull).
Proof.
  destruct r as [v|m c rest]; simpl.
  - destruct v; eexists; (split; [reflexivity|]); split; congruence.
  - exists false. split; [done|]. split; congruence.
Qed.

(** ** Reconstruction *)

Section CreateMore.
Context `{Platform}.

(** X4. An Identity built by [create] has a non-empty alias, DID string,
    public-key hex, private-key hex and key id (the "unknown" fallbacks
    never show); its provider is the config's, or "did:key" when the config
    has none; its metadata is the config's, or empty; its creation time is
    the config's, or the clock's. *)
Theorem create_fills_defaults (config : IdentityConfig.t) (i : Identity) :
  result (create config) = Return (Result.success i) →
  IdentityConfig.alias config = Some (getAlias i) ∧ getAlias i ≠ ""
  ∧ getDid i ≠ "" ∧ getPublicKey i ≠ ""
  ∧ (∃ key, getPrivateKeyHex i = Some key ∧ key ≠ ""
            ∧ IdentityConfig.privateKeyHex config = Some key)
  ∧ getKid i ≠ ""
  ∧ (∀ provider, IdentityConfig.provider config = Some provider →
       provider ≠ "" → getProvider i = provider)
  ∧ (absent_or_empty (IdentityConfig.provider config) →
       getProvider i = "did:key")
  ∧ getMetadata i = default ∅ (IdentityConfig.metadata config)
  ∧ getCreatedAt i = default clock_now (IdentityConfig.createdAt config).
Proof.
  intros Hc. apply create_success_iff in Hc
    as (alias & did & publicKeyHex & privateKeyHex & privateKeyPEM
        & publicKeyPEM & signer & key & didUnit & c0 & contract
        & credentialUnit & dna & Halias & ? & Hdid & ? & Hpub & ?
        & Hpriv & ? & _ & _ & _ & _ & _ & _ & _ & _ & _ & _ & _ & ->).
  unfold getAlias, getDid, getPublicKey, getPrivateKeyHex, getKid,
    getProvider, getMetadata, getCreatedAt. simpl.
  rewrite Halias, Hdid, Hpub, Hpriv. simpl. split_and!; try done.
  - by exists privateKeyHex.
  - by apply str_or_ne.
  - intros provider -> ?. by apply str_or_truthy.
  - apply str_or_absent.
Qed.

(** X5. Persisting and reloading is lossless for an Identity built by
    [create]: passing its [toDomain()] record to [create] again succeeds
    and yields the very same Identity, record and units. *)
Theorem create_toDomain_create (config : IdentityConfig.t) (i : Identity) :
  result (create config) = Return (Result.success i) →
  result (create (config_of_domain (toDomain i)))
  = Return (Result.success i).
Proof.
  intros Hc. apply create_success_iff in Hc
    as (alias & did & publicKeyHex & privateKeyHex & privateKeyPEM
        & publicKeyPEM & signer & key & didUnit & c0 & contract
        & credentialUnit & dna & Halias & ? & Hdid & ? & Hpub & ?
        & Hpriv & ? & ? & ? & ? & ? & ? & ? & ? & ? & ? & ? & ? & ->).
  apply create_success_iff.
  exists alias, did, publicKeyHex, privateKeyHex, privateKeyPEM, publicKeyPEM,
         signer, key.
  exists didUnit, c0, contract, credentialUnit, dna.
  unfold assembled, toDomain, config_of_domain, new_Identity. simpl.
  rewrite Halias, Hdid, Hpub, Hpriv. simpl.
  split_and!; try done.
  do 2 f_equal.
  - symmetry. apply str_or_truthy. by apply str_or_ne.
  - symmetry. apply str_or_truthy. by apply str_or_ne.
Qed.

(** The calls of a [create] that rebuilds every unit. *)
Lemma create_calls_rebuilt
    (config : IdentityConfig.t)
    (alias did publicKeyHex privateKeyHex privateKeyPEM publicKeyPEM : string)
    (signer : Signer) (key : Key) (didUnit : DID) (c0 : Credential)
    (contract : TeachingContract) (credentialUnit : Credential)
    (dna : UnitSchema) :
  IdentityConfig.alias config = Some alias → alias ≠ "" →
  IdentityConfig.did config = Some did → did ≠ "" →
  IdentityConfig.publicKeyHex config = Some publicKeyHex →
  publicKeyHex ≠ "" →
  IdentityConfig.privateKeyHex config = Some privateKeyHex →
  privateKeyHex ≠ "" →
  keys_hexPrivateKeyToPem privateKeyHex = Return (Some privateKeyPEM) →
  privateKeyPEM ≠ "" →
  keys_hexToPem publicKeyHex "ed25519" = Return (Some publicKeyPEM) →
  publicKeyPEM ≠ "" →
  keys_Signer_create
    {| sc_privateKeyPEM := privateKeyPEM;
       sc_publicKeyPEM := publicKeyPEM;
       sc_keyType := "ed25519";
       sc_secure := None;
       sc_name := alias +:+ "-signer" |} = Return (Some signer) →
  keys_Signer_createKey signer = Return (Some key) →
  did_DID_create
    {| dc_publicKeyHex := publicKeyHex;
       dc_keyType := "Ed25519";
       dc_alias := alias |} = Return (Some didUnit) →
  credential_Credential_create = Return c0 →
  keys_Key_teach key = Return contract →
  credential_Credential_learn c0 [contract] = Return credentialUnit →
  unit_createUnitSchema "identity" "1.0.0" = Return dna →
  calls (create config)
  = [hexPrivateKeyToPem_call privateKeyHex;
     hexToPem_call publicKeyHex "ed25519";
     Signer_create_call
       {| sc_privateKeyPEM := privateKeyPEM;
          sc_publicKeyPEM := publicKeyPEM;
          sc_keyType := "ed25519";
          sc_secure := None;
          sc_name := alias +:+ "-signer" |};
     Signer_createKey_call;
     DID_create_call
       {| dc_publicKeyHex := publicKeyHex;
          dc_keyType := "Ed25519";
          dc_alias := alias |};
     Credential_create_call;
     Key_teach_call;
     Credential_learn_call [unitId contract];
     createUnitSchema_call "identity" "1.0.0"]
    ++ match IdentityConfig.createdAt config with
       | Some _ => []
       | None => [new_Date_call]
       end.
Proof.
  intros Halias ? Hdid ? Hpub ? Hpriv ? HprivPEM ? HpubPEM ? Hsigner Hkey
         HdidUnit Hc0 Hteach Hlearn Hdna.
  unfold create. rewrite calls_try_catch_to_fail. unfold create_try.
  rewrite Hpriv, Hpub, Hdid, Halias, !falsy_Some_ne by done.
  simpl orb. cbv iota. simpl string_of. unfold_collaborators.
  run_call HprivPEM. run_call HpubPEM.
  rewrite !falsy_Some_ne by done. simpl orb. cbv iota.
  rewrite !str_or_truthy by done.
  run_call Hsigner. run_call Hkey. run_call HdidUnit. run_call Hc0.
  run_call Hteach. run_call Hlearn. run_call Hdna.
  destruct (IdentityConfig.createdAt config); reflexivity.
Qed.

(** X6. A successful [create] makes these calls, each once and in this
    order: the two hex-to-PEM conversions, Signer.create, createKey,
    DID.create, Credential.create, key.teach, the credential unit's learn,
    createUnitSchema; it reads the clock after them, and only when the
    config has no creation time. *)
Theorem create_success_calls (config : IdentityConfig.t) (i : Identity) :
  result (create config) = Return (Result.success i) →
  ∃ privateKeyHex privateKeyPEM publicKeyPEM contract,
    getPrivateKeyHex i = Some privateKeyHex
    ∧ keys_hexPrivateKeyToPem privateKeyHex = Return (Some privateKeyPEM)
    ∧ keys_hexToPem (getPublicKey i) "ed25519" = Return (Some publicKeyPEM)
    ∧ keys_Key_teach (IdentityProps.keyUnit (props i)) = Return contract
    ∧ calls (create config)
      = [hexPrivateKeyToPem_call privateKeyHex;
         hexToPem_call (getPublicKey i) "ed25519";
         Signer_create_call
           {| sc_privateKeyPEM := privateKeyPEM;
              sc_publicKeyPEM := publicKeyPEM;
              sc_keyType := "ed25519";
              sc_secure := None;
              sc_name := getAlias i +:+ "-signer" |};
         Signer_createKey_call;
         DID_create_call
           {| dc_publicKeyHex := getPublicKey i;
              dc_keyType := "Ed25519";
              dc_alias := getAlias i |};
         Credential_create_call;
         Key_teach_call;
         Credential_learn_call [unitId contract];
         createUnitSchema_call "identity" "1.0.0"]
        ++ match IdentityConfig.createdAt config with
           | Some _ => []
           | None => [new_Date_call]
           end.
Proof.
  intros Hc. apply create_success_iff in Hc
    as (alias & did & publicKeyHex & privateKeyHex & privateKeyPEM
        & publicKeyPEM & signer & key & didUnit & c0 & contract
        & credentialUnit & dna & Halias & ? & Hdid & ? & Hpub & ?
        & Hpriv & ? & HprivPEM & ? & HpubPEM & ? & Hsigner & Hkey
        & HdidUnit & Hc0 & Hteach & Hlearn & Hdna & ->).
  exists privateKeyHex, privateKeyPEM, publicKeyPEM, contract.
  unfold getPrivateKeyHex, getPublicKey, getAlias. simpl.
  rewrite Hpriv, Hpub, Halias. simpl. split_and!; try done.
  by eapply create_calls_rebuilt.
Qed.

(** X7. On every path, whatever the config and however its calls end,
    [create] calls nothing but the hex-to-PEM conversions, Signer.create,
    createKey, DID.create, Credential.create, key.teach, the credential
    unit's learn, createUnitSchema and the clock: it never generates a key
    pair, never asks the DID unit for the DID string, never asks the signer
    for its public key, never issues, signs or verifies. *)
Theorem create_calls_only_rebuild (config : IdentityConfig.t) :
  Forall (λ c, create_may_call c = true) (calls (create config)).
Proof.
  unfold create. rewrite calls_try_catch_to_fail.
  unfold create_try. unfold_collaborators.
  repeat (cbv beta iota;
          first [ rewrite calls_bind_pair
                | rewrite calls_pair
                | match goal with
                  | |- context [match ?o with _ => _ end] => destruct o
                  end ]).
  all: simpl; by repeat constructor.
Qed.

(** X8. Every failure [create] returns has no context data, and either it
    carries a cause, and then its message is the cause's message, or it
    carries none, and then its message is one of the four fixed messages of
    [create] (required fields, signer, key, DID) or "Unknown error
    occurred". *)
Theorem create_failure_taxonomy
    (config : IdentityConfig.t) (msg : string) (cause : option Error)
    (rest : list jsdata) :
  result (create config) = Return (Result.fail msg cause rest) →
  rest = []
  ∧ match cause with
    | Some e => msg = Error_message e
    | None => msg ∈ create_messages ∨ msg = "Unknown error occurred"
    end.
Proof.
  unfold create. rewrite result_try_catch_to_fail. intros Hc.
  injection Hc as Hc. unfold create_try in Hc. unfold_collaborators.
  eff_all Hc.
  all: simpl in Hc; try discriminate Hc.
  all: repeat match goal with t : thrown |- _ => destruct t end.
  all: simpl in Hc; simplify_eq; split; [done|]; try done.
  all: unfold create_messages; rewrite ?elem_of_cons; naive_solver.
Qed.

(** X9. Once the four required fields are there: when the private-key
    conversion throws, [create] stops after that one call and returns the
    failure made of what was thrown; when a conversion returns nothing or
    an empty string, [create] stops after the two conversions and returns
    a failure with the message "Failed to convert keys to PEM format" and
    an Error of that message as cause. *)
Theorem create_conversion_failure
    (config : IdentityConfig.t) (alias did publicKeyHex privateKeyHex : string) :
  IdentityConfig.alias config = Some alias → alias ≠ "" →
  IdentityConfig.did config = Some did → did ≠ "" →
  IdentityConfig.publicKeyHex config = Some publicKeyHex →
  publicKeyHex ≠ "" →
  IdentityConfig.privateKeyHex config = Some privateKeyHex →
  privateKeyHex ≠ "" →
  (∀ t, keys_hexPrivateKeyToPem privateKeyHex = Throw t →
     create config
     = ([hexPrivateKeyToPem_call privateKeyHex], Return (converted (Throw t))))
  ∧ (∀ privateKeyPEM publicKeyPEM,
     keys_hexPrivateKeyToPem privateKeyHex = Return privateKeyPEM →
     keys_hexToPem publicKeyHex "ed25519" = Return publicKeyPEM →
     absent_or_empty privateKeyPEM ∨ absent_or_empty publicKeyPEM →
     create config
     = ([hexPrivateKeyToPem_call privateKeyHex;
         hexToPem_call publicKeyHex "ed25519"],
        Return (Result.fail "Failed to convert keys to PEM format"
                  (Some (new_Error "Failed to convert keys to PEM format"))
                  []))).
Proof.
  intros Halias ? Hdid ? Hpub ? Hpriv ?.
  split.
  - intros t Ht. unfold create, create_try.
    rewrite Hpriv, Hpub, Hdid, Halias, !falsy_Some_ne by done.
    simpl orb. cbv iota. simpl string_of.
    unfold hexPrivateKeyToPem, call, mbind, Eff_bind. rewrite Ht.
    by destruct t.
  - intros privateKeyPEM publicKeyPEM HprivPEM HpubPEM Hbad.
    unfold create, create_try.
    rewrite Hpriv, Hpub, Hdid, Halias, !falsy_Some_ne by done.
    simpl orb. cbv iota. simpl string_of.
    unfold hexPrivateKeyToPem, hexToPem, call, mbind, Eff_bind.
    rewrite HprivPEM, HpubPEM.
    assert (falsy privateKeyPEM || falsy publicKeyPEM = true) as ->.
    { destruct Hbad as [Hb|Hb]; rewrite (falsy_absent_or_empty _ Hb);
        by rewrite ?orb_true_r. }
    reflexivity.
Qed.

(** X10. Once the fields are there and the keys convert: when
    Signer.create, createKey or DID.create returns nothing, [create] stops
    right after that call and returns a failure with that step's message
    and no cause. *)
Theorem create_unit_not_built
    (config : IdentityConfig.t)
    (alias did publicKeyHex privateKeyHex privateKeyPEM publicKeyPEM : string) :
  IdentityConfig.alias config = Some alias → alias ≠ "" →
  IdentityConfig.did config = Some did → did ≠ "" →
  IdentityConfig.publicKeyHex config = Some publicKeyHex →
  publicKeyHex ≠ "" →
  IdentityConfig.privateKeyHex config = Some privateKeyHex →
  privateKeyHex ≠ "" →
  keys_hexPrivateKeyToPem privateKeyHex = Return (Some privateKeyPEM) →
  privateKeyPEM ≠ "" →
  keys_hexToPem publicKeyHex "ed25519" = Return (Some publicKeyPEM) →
  publicKeyPEM ≠ "" →
  let signerConfig :=
    {| sc_privateKeyPEM := privateKeyPEM;
       sc_publicKeyPEM := publicKeyPEM;
       sc_keyType := "ed25519";
       sc_secure := None;
       sc_name := alias +:+ "-signer" |} in
  let didConfig :=
    {| dc_publicKeyHex := publicKeyHex;
       dc_keyType := "Ed25519";
       dc_alias := alias |} in
  let conversions :=
    [hexPrivateKeyToPem_call privateKeyHex;
     hexToPem_call publicKeyHex "ed25519"] in
  (keys_Signer_create signerConfig = Return None →
     create config
     = (conversions ++ [Signer_create_call signerConfig],
        Return (Result.fail "Failed to create signer from key material"
                            None [])))
  ∧ (∀ signer,
     keys_Signer_create signerConfig = Return (Some signer) →
     keys_Signer_createKey signer = Return None →
     create config
     = (conversions ++ [Signer_create_call signerConfig; Signer_createKey_call],
        Return (Result.fail "Failed to create key from signer" None [])))
  ∧ (∀ signer key,
     keys_Signer_create signerConfig = Return (Some signer) →
     keys_Signer_createKey signer = Return (Some key) →
     did_DID_create didConfig = Return None →
     create config
     = (conversions ++ [Signer_create_call signerConfig; Signer_createKey_call;
                        DID_create_call didConfig],
        Return (Result.fail "Failed to reconstruct DID" None []))).
Proof.
  intros Halias ? Hdid ? Hpub ? Hpriv ? HprivPEM ? HpubPEM ?
         signerConfig didConfig conversions.
  unfold create, create_try.
  rewrite Hpriv, Hpub, Hdid, Halias, !falsy_Some_ne by done.
  simpl orb. cbv iota. simpl string_of. unfold_collaborators.
  unfold mbind, Eff_bind.
  rewrite HprivPEM, HpubPEM, !falsy_Some_ne by done. simpl orb. cbv iota.
  simpl string_of. rewrite !str_or_truthy by done.
  fold signerConfig. fold didConfig.
  split_and!.
  - by intros ->.
  - by intros signer -> ->.
  - by intros signer key -> -> ->.
Qed.

(** X11. [create] takes the DID string on trust: when it accepts a config,
    it accepts the same config with any other non-empty DID string, makes
    the same calls, and builds the same units and keys around the DID
    string it was given. *)
Theorem create_trusts_did
    (config : IdentityConfig.t) (i : Identity) (did : string) :
  result (create config) = Return (Result.success i) →
  did ≠ "" →
  ∃ i', result (create (with_did config did)) = Return (Result.success i')
        ∧ getDid i' = did
        ∧ getPublicKey i' = getPublicKey i
        ∧ getPrivateKeyHex i' = getPrivateKeyHex i
        ∧ IdentityProps.didUnit (props i') = IdentityProps.didUnit (props i)
        ∧ IdentityProps.signerUnit (props i')
          = IdentityProps.signerUnit (props i)
        ∧ calls (create (with_did config did)) = calls (create config).
Proof.
  intros Hc Hne. apply create_success_iff in Hc
    as (alias & did0 & publicKeyHex & privateKeyHex & privateKeyPEM
        & publicKeyPEM & signer & key & didUnit & c0 & contract
        & credentialUnit & dna & Halias & ? & Hdid & ? & Hpub & ?
        & Hpriv & ? & HprivPEM & ? & HpubPEM & ? & Hsigner & Hkey
        & HdidUnit & Hc0 & Hteach & Hlearn & Hdna & ->).
  exists (assembled (with_did config did) dna didUnit signer key
                    credentialUnit).
  unfold getDid, getPublicKey, getPrivateKeyHex.
  split_and!; [|reflexivity..|].
  - apply create_success_iff.
    exists alias, did, publicKeyHex, privateKeyHex, privateKeyPEM,
           publicKeyPEM, signer, key.
    exists didUnit, c0, contract, credentialUnit, dna.
    split_and!; done.
  - rewrite (create_calls_rebuilt config alias did0 publicKeyHex
               privateKeyHex privateKeyPEM publicKeyPEM signer key didUnit
               c0 contract credentialUnit dna) by done.
    by rewrite (create_calls_rebuilt (with_did config did) alias did
                  publicKeyHex privateKeyHex privateKeyPEM publicKeyPEM
                  signer key didUnit c0 contract credentialUnit dna).
Qed.

End CreateMore.

(** ** Bootstrap *)

Section GenerateMore.
Context `{Platform}.

(** X12. An Identity built by [generate] has the given alias, provider
    "did:key", empty metadata, the clock's time, a key id equal to its
    public-key hex, and the private key of the generated pair; its
    public-key hex is the one its signer reports, its key unit is that
    signer's, its DID unit was created from that public-key hex, and its
    DID string is the one that DID unit derives. *)
Theorem generate_record (alias : string) (i : Identity) :
  result (generate alias) = Return (Result.success i) →
  getAlias i = alias
  ∧ getProvider i = "did:key"
  ∧ getKid i = getPublicKey i
  ∧ getMetadata i = ∅
  ∧ getCreatedAt i = clock_now
  ∧ getDid i ≠ "" ∧ getPublicKey i ≠ ""
  ∧ (∃ keyPair, keys_generateKeyPair "ed25519" "hex" = Return (Some keyPair)
                ∧ getPrivateKeyHex i = Some (privateKey keyPair))
  ∧ keys_Signer_getPublicKeyHex (IdentityProps.signerUnit (props i))
    = Return (Some (getPublicKey i))
  ∧ keys_Signer_createKey (IdentityProps.signerUnit (props i))
    = Return (Some (IdentityProps.keyUnit (props i)))
  ∧ did_DID_create
      {| dc_publicKeyHex := getPublicKey i;
         dc_keyType := "Ed25519";
         dc_alias := alias |}
    = Return (Some (IdentityProps.didUnit (props i)))
  ∧ did_DID_generateKey (IdentityProps.didUnit (props i))
    = Return (Some (getDid i)).
Proof.
  intros Hg.
  destruct (generate_success_inv _ _ Hg)
    as (keyPair & publicKeyPEM & privateKeyPEM & signer & key & publicKeyHex
        & didUnit & didString & c0 & contract & credentialUnit & credential
        & dna & c1 & c3 & Hkp & Hpub & ? & Hpriv & ? & Hsigner & Hkey
        & Hhex & ? & Hdid & Hgen & ? & Hc0 & Hteach & Hlearn & Hissue
        & Hdna & Hc1 & Hc3 & ->).
  unfold getAlias, getProvider, getKid, getPublicKey, getMetadata,
    getCreatedAt, getDid, getPrivateKeyHex. simpl.
  split_and!; try done. by exists keyPair.
Qed.

(** X13. A successful [generate] makes these seventeen calls, each once
    and in this order: generateKeyPair, the two conversions, Signer.create
    (secure), createKey, getPublicKeyHex, DID.create, generateKey,
    Credential.create, key.teach, the credential unit's learn,
    issueCredential, createUnitSchema for version 1.0.1, the clock, and the
    teach of the signer, the key and the credential unit. *)
Theorem generate_success_calls (alias : string) (i : Identity) :
  result (generate alias) = Return (Result.success i) →
  ∃ keyPair publicKeyPEM privateKeyPEM contract,
    keys_generateKeyPair "ed25519" "hex" = Return (Some keyPair)
    ∧ keys_hexToPem (publicKey keyPair) "ed25519" = Return (Some publicKeyPEM)
    ∧ keys_hexPrivateKeyToPem (privateKey keyPair) = Return (Some privateKeyPEM)
    ∧ keys_Key_teach (IdentityProps.keyUnit (props i)) = Return contract
    ∧ calls (generate alias)
      = [generateKeyPair_call "ed25519" "hex";
         hexToPem_call (publicKey keyPair) "ed25519";
         hexPrivateKeyToPem_call (privateKey keyPair);
         Signer_create_call
           {| sc_privateKeyPEM := privateKeyPEM;
              sc_publicKeyPEM := publicKeyPEM;
              sc_keyType := "ed25519";
              sc_secure := Some true;
              sc_name := alias +:+ "-signer" |};
         Signer_createKey_call;
         Signer_getPublicKeyHex_call;
         DID_create_call
           {| dc_publicKeyHex := getPublicKey i;
              dc_keyType := "Ed25519";
              dc_alias := alias |};
         DID_generateKey_call;
         Credential_create_call;
         Key_teach_call;
         Credential_learn_call [unitId contract];
         Credential_issueCredential_call
           {| holder := {| Party.id := getDid i; Party.name := alias |};
              issuedBy := {| Party.id := getDid i; Party.name := alias |} |}
           "IdentityCredential" (getDid i);
         createUnitSchema_call "identity" "1.0.1";
         new_Date_call;
         Signer_teach_call;
         Key_teach_call;
         Credential_teach_call].
Proof.
  intros Hg.
  destruct (generate_success_inv _ _ Hg)
    as (keyPair & publicKeyPEM & privateKeyPEM & signer & key & publicKeyHex
        & didUnit & didString & c0 & contract & credentialUnit & credential
        & dna & c1 & c3 & Hkp & Hpub & ? & Hpriv & ? & Hsigner & Hkey
        & Hhex & ? & Hdid & Hgen & ? & Hc0 & Hteach & Hlearn & Hissue
        & Hdna & Hc1 & Hc3 & ->).
  exists keyPair, publicKeyPEM, privateKeyPEM, contract.
  unfold getPublicKey, getDid. simpl. split_and!; try done.
  unfold generate. rewrite calls_try_catch_to_fail.
  unfold generate_try. unfold_collaborators.
  run_call Hkp. run_call Hpub. run_call Hpriv.
  rewrite !falsy_Some_ne by done. simpl orb. cbv iota. simpl string_of.
  run_call Hsigner. run_call Hkey. run_call Hhex.
  rewrite !falsy_Some_ne by done. cbv iota. simpl string_of.
  run_call Hdid. run_call Hgen.
  rewrite !falsy_Some_ne by done. cbv iota. simpl string_of.
  run_call Hc0. run_call Hteach. run_call Hlearn. run_call Hissue.
  simpl Result.isSuccess. simpl negb. cbv iota.
  rewrite calls_bind_pair. simpl Result.value. cbv beta iota.
  run_call Hdna. rewrite calls_bind_pair. cbv beta iota.
  run_call Hc1. rewrite calls_bind_pair. cbv beta iota. run_call Hc3.
  reflexivity.
Qed.

(** X14. Every failure [generate] returns has no context data, and either
    it carries a cause, and then its message is the cause's message, or it
    carries none, and then it is "Unknown error occurred" or the credential
    unit's own failure, reported as "Failed to issue identity credential: "
    followed by that failure's message. *)
Theorem generate_failure_taxonomy
    (alias msg : string) (cause : option Error) (rest : list jsdata) :
  result (generate alias) = Return (Result.fail msg cause rest) →
  rest = []
  ∧ match cause with
    | Some e => msg = Error_message e
    | None =>
        msg = "Unknown error occurred"
        ∨ ∃ subject issuer details c d unit,
            credential_Credential_issueCredential
              unit subject "IdentityCredential" issuer
            = Return (Result.fail details c d)
            ∧ msg = "Failed to issue identity credential: " +:+ details
    end.
Proof.
  unfold generate. rewrite result_try_catch_to_fail. intros Hg.
  injection Hg as Hg. unfold generate_try in Hg. unfold_collaborators.
  eff_all Hg.
  all: simpl in Hg; try discriminate Hg.
  all: repeat match goal with t : thrown |- _ => destruct t end.
  all: simpl in Hg; simplify_eq; split; [done|]; try done.
  all: try by left.
  right.
  match goal with
  | Hi : _ = Return ?r, Hb : negb (Result.isSuccess ?r) = true |- _ =>
      destruct r as [?|details fcause frest]; [by simpl in Hb|];
      eexists _, _, details, fcause, frest, _; split; [exact Hi|reflexivity]
  end.
Qed.

(** X15. When generateKeyPair returns nothing, [generate] stops after that
    call; when Signer.create returns nothing, it stops after that call.
    Either way the failure carries the step's message and, unlike the
    matching failure of [create], an Error of that message as cause. *)
Theorem generate_unit_not_built (alias : string) :
  (keys_generateKeyPair "ed25519" "hex" = Return None →
     generate alias
     = ([generateKeyPair_call "ed25519" "hex"],
        Return (Result.fail "Failed to generate key pair"
                  (Some (new_Error "Failed to generate key pair")) [])))
  ∧ (∀ keyPair publicKeyPEM privateKeyPEM,
     keys_generateKeyPair "ed25519" "hex" = Return (Some keyPair) →
     keys_hexToPem (publicKey keyPair) "ed25519" = Return (Some publicKeyPEM) →
     publicKeyPEM ≠ "" →
     keys_hexPrivateKeyToPem (privateKey keyPair)
       = Return (Some privateKeyPEM) →
     privateKeyPEM ≠ "" →
     let signerConfig :=
       {| sc_privateKeyPEM := privateKeyPEM;
          sc_publicKeyPEM := publicKeyPEM;
          sc_keyType := "ed25519";
          sc_secure := Some true;
          sc_name := alias +:+ "-signer" |} in
     keys_Signer_create signerConfig = Return None →
     generate alias
     = ([generateKeyPair_call "ed25519" "hex";
         hexToPem_call (publicKey keyPair) "ed25519";
         hexPrivateKeyToPem_call (privateKey keyPair);
         Signer_create_call signerConfig],
        Return (Result.fail "Failed to create signer from key pair"
                  (Some (new_Error "Failed to create signer from key pair"))
                  []))).
Proof.
  split.
  - intros Hkp. unfold generate, generate_try. unfold_collaborators.
    unfold mbind, Eff_bind. by rewrite Hkp.
  - intros keyPair publicKeyPEM privateKeyPEM Hkp Hpub ? Hpriv ?
           signerConfig Hsigner.
    unfold generate, generate_try. unfold_collaborators.
    unfold mbind, Eff_bind.
    rewrite Hkp, Hpub, Hpriv, !falsy_Some_ne by done. simpl orb. cbv iota.
    simpl string_of. fold signerConfig. by rewrite Hsigner.
Qed.

End GenerateMore.

(** ** Delegated operations and projections *)

Section DelegationMore.
Context `{Platform}.
Implicit Types this : Identity.

Lemma issuer_used_str_or this issuer used :
  issuer_used this issuer used →
  str_or issuer (IdentityProps.did (props this)) = used.
Proof.
  intros [[-> ?] | [? ->]]; [by apply str_or_truthy | by apply str_or_absent].
Qed.

(** X16. When the registry has an entry under "signer.verify", [verify]
    invokes it with the data and the signature, in that order, and ends as
    it ends; the bound signer's verify is not called. *)
Theorem verify_override this (data signature : string) f :
  _capabilities this !! "signer.verify" = Some f →
  verify this data signature
  = ([execute_call "signer.verify" [DString data; DString signature]],
     f [DString data; DString signature])
  ∧ ∀ d s, Signer_verify_call d s ∉ calls (verify this data signature).
Proof.
  intros Hf.
  assert (verify this data signature
          = ([execute_call "signer.verify" [DString data; DString signature]],
             f [DString data; DString signature])) as Hv.
  { unfold verify, execute. by rewrite (can_true _ _ _ Hf), Hf. }
  split; [done|]. intros d s. rewrite Hv. unfold calls. simpl.
  by intros ?%list_elem_of_singleton.
Qed.

(** X17. An Identity built by [create] can always sign: whatever has been
    learned into its registry since, [sign] makes exactly one call, to the
    learned "signer.sign" when there is one and to the bound signer
    otherwise; it never raises the capability-missing error. *)
Theorem created_identity_can_sign
    (config : IdentityConfig.t) (i : Identity)
    (learned : gmap string capability) (data : string) :
  result (create config) = Return (Result.success i) →
  let this := {| props := props i; _capabilities := learned |} in
  match learned !! "signer.sign" with
  | Some f =>
      sign this data
      = ([execute_call "signer.sign" [DString data]], f [DString data])
  | None =>
      sign this data
      = ([Signer_sign_call data],
         outcome_map DString
           (keys_Signer_sign (IdentityProps.signerUnit (props i)) data))
  end.
Proof.
  intros Hc this. apply create_success_iff in Hc
    as (alias & did & publicKeyHex & privateKeyHex & privateKeyPEM
        & publicKeyPEM & signer & key & didUnit & c0 & contract
        & credentialUnit & dna & Halias & ? & Hdid & ? & Hpub & ?
        & Hpriv & ? & _ & _ & _ & _ & _ & _ & _ & _ & _ & _ & _ & ->).
  destruct (learned !! "signer.sign") as [f|] eqn:Hf.
  - unfold sign, execute. rewrite (can_true this _ f) by done.
    subst this. simpl. by rewrite Hf.
  - unfold sign. rewrite (can_false this) by done.
    subst this. simpl. rewrite Hpriv, falsy_Some_ne by done. simpl.
    unfold Signer_sign, call, mbind, Eff_bind.
    by destruct (keys_Signer_sign _ _).
Qed.

(** X18. With no learned override, [issueCredential] makes one call, to
    the bound credential unit, with the given issuer or, when none is
    given, the Identity's own DID. A success is passed on with its
    credential; a failure is rebuilt with its message, or with "Failed to
    issue credential" when the message is empty, and without its cause and
    data; an exception is not caught. *)
Theorem issueCredential_fallback
    this (subject : IdentitySubject) (type : string) (issuer : option string)
    (used : string) :
  _capabilities this !! "credential.issueCredential" = None →
  issuer_used this issuer used →
  let unit_result :=
    credential_Credential_issueCredential
      (IdentityProps.credentialUnit (props this)) subject type used in
  calls (issueCredential this subject type issuer)
  = [Credential_issueCredential_call subject type used]
  ∧ (∀ credential, unit_result = Return (Result.success credential) →
       result (issueCredential this subject type issuer)
       = Return (FromCredentialUnit (Result.success credential)))
  ∧ (∀ msg cause rest, unit_result = Return (Result.fail msg cause rest) →
       result (issueCredential this subject type issuer)
       = Return (FromCredentialUnit
                   (Result.fail
                      (if decide (msg = "")
                       then "Failed to issue credential" else msg)
                      None [])))
  ∧ (∀ t, unit_result = Throw t →
       result (issueCredential this subject type issuer) = Throw t).
Proof.
  intros Hnone Hused unit_result. subst unit_result.
  unfold issueCredential. rewrite (can_false _ _ Hnone).
  rewrite (issuer_used_str_or _ _ _ Hused).
  unfold Credential_issueCredential, call.
  destruct (credential_Credential_issueCredential _ _ _ _) as [[v|m c d]|t];
    split_and!; try done; try (intros; simplify_eq; done).
  intros msg cause rest [= -> -> ->]. simpl.
  unfold str_or, truthy. simpl. by destruct (decide (msg = "")).
Qed.

(** X19. When the registry has an entry under
    "credential.issueCredential", [issueCredential] invokes it with the
    subject, the type and the issuer (the given one, or the Identity's own
    DID), hands back what it returns, and does not call the bound
    credential unit. *)
Theorem issueCredential_override
    this (subject : IdentitySubject) (type : string) (issuer : option string)
    (used : string) f :
  _capabilities this !! "credential.issueCredential" = Some f →
  issuer_used this issuer used →
  let args := [subject_data subject; DString type; DString used] in
  issueCredential this subject type issuer
  = ([execute_call "credential.issueCredential" args],
     outcome_map FromCapability (f args))
  ∧ ∀ s t iss,
      Credential_issueCredential_call s t iss
        ∉ calls (issueCredential this subject type issuer).
Proof.
  intros Hf Hused args.
  assert (issueCredential this subject type issuer
          = ([execute_call "credential.issueCredential" args],
             outcome_map FromCapability (f args))) as Hi.
  { unfold issueCredential, execute. rewrite (can_true _ _ _ Hf), Hf.
    rewrite (issuer_used_str_or _ _ _ Hused). fold args.
    unfold call, mbind, Eff_bind. by destruct (f args). }
  split; [done|]. intros s t iss. rewrite Hi. unfold calls. simpl.
  by intros ?%list_elem_of_singleton.
Qed.

(** X20. The views of an Identity agree: the three fields of [present()]
    (did, publicKeyHex, credential, and no other) are in [public()] and in
    the [toDomain()] record with the same values, and they are what
    [getDid], [getPublicKey] and the deprecated [getPublicKeyHex]
    return. *)
Theorem projections_agree this :
  IdentityPresent_object (present this) ⊆ public this
  ∧ IdentityPresent_object (present this) ⊆ IIdentity_object (toDomain this)
  ∧ IdentityPresent_object (present this) !! "did"
    = Some (PString (getDid this))
  ∧ IdentityPresent_object (present this) !! "publicKeyHex"
    = Some (PString (getPublicKey this))
  ∧ getPublicKeyHex this = getPublicKey this
  ∧ dom (IdentityPresent_object (present this))
    = list_to_set ["did"; "publicKeyHex"; "credential"].
Proof.
  assert (∀ target : gmap string propval,
            target !! "did" = Some (PString (getDid this)) →
            target !! "publicKeyHex" = Some (PString (getPublicKey this)) →
            target !! "credential" = Some (PObject (getCredential this)) →
            IdentityPresent_object (present this) ⊆ target) as Hsub.
  { intros target Hdid Hpub Hcred. apply map_subseteq_spec. intros k v Hk.
    unfold IdentityPresent_object, present in Hk. simpl in Hk.
    repeat (apply lookup_insert_Some in Hk as [[<- <-]|[? Hk]]; [done|]).
    done. }
  split_and!.
  - by apply Hsub.
  - by apply Hsub.
  - done.
  - done.
  - done.
  - unfold IdentityPresent_object. by rewrite dom_list_to_map_L.
Qed.

End DelegationMore.

(** ** createIdentity *)

Section CreateIdentityMore.
Context `{IssuingPlatform}.

(** What a [createIdentity] that returns went through. *)
Lemma createIdentity_return_inv (alias provider : string) (i : Identity) :
  createIdentity alias provider = Return i →
  ∃ keyPair did key vc,
    keys_generateKeyPair_default "ed25519" = Return (Some keyPair)
    ∧ did_createDIDKey (publicKey keyPair) "Ed25519" = Return did
    ∧ credential_Key_create keyPair "Ed25519" clock_now = Return key
    ∧ credential_issueVC key
        {| holder := {| Party.id := did; Party.name := alias |};
           issuedBy := {| Party.id := did; Party.name := alias |} |}
        alias did = Return vc
    ∧ vc_success vc = true
    ∧ result (create
        {| IdentityConfig.alias := Some alias;
           IdentityConfig.did := Some did;
           IdentityConfig.publicKeyHex := Some (publicKey keyPair);
           IdentityConfig.privateKeyHex := Some (privateKey keyPair);
           IdentityConfig.kid := Some (publicKey keyPair);
           IdentityConfig.provider := Some provider;
           IdentityConfig.credential := Some (vc_object vc);
           IdentityConfig.metadata := None;
           IdentityConfig.createdAt := None |})
      = Return (Result.success i).
Proof.
  unfold createIdentity. intros Hc.
  destruct (createIdentity_try alias provider) as [identity|t] eqn:Htry;
    [|discriminate Hc].
  injection Hc as ->. unfold createIdentity_try in Htry.
  unfold mbind, outcome_bind in Htry.
  destruct (keys_generateKeyPair_default "ed25519") as [[keyPair|]|?] eqn:Hkp;
    try discriminate Htry.
  destruct (did_createDIDKey _ _) as [did|?] eqn:Hdid; [|discriminate Htry].
  destruct (credential_Key_create _ _ _) as [key|?] eqn:Hkey;
    [|discriminate Htry].
  destruct (credential_issueVC _ _ _ _) as [vc|?] eqn:Hvc;
    [|discriminate Htry].
  destruct (vc_success vc) eqn:Hsuccess; [|discriminate Htry].
  simpl in Htry.
  destruct (result (create _)) as [[created|m c d]|?] eqn:Hcreate;
    try discriminate Htry.
  simpl in Htry. injection Htry as ->.
  by exists keyPair, did, key, vc.
Qed.

(** X21. [createIdentity] lets one error out only: whatever went wrong
    inside, what it throws is an Error with the message "Failed to create
    identity". With an empty alias it always throws, since [create] rejects
    the config; so it does when the issued credential reports no
    success. *)
Theorem createIdentity_errors (alias provider : string) :
  (∀ t, createIdentity alias provider = Throw t →
        t = ThrowError (new_Error "Failed to create identity"))
  ∧ (alias = "" →
     createIdentity alias provider
     = Throw (ThrowError (new_Error "Failed to create identity")))
  ∧ (∀ keyPair did key vc,
     keys_generateKeyPair_default "ed25519" = Return (Some keyPair) →
     did_createDIDKey (publicKey keyPair) "Ed25519" = Return did →
     credential_Key_create keyPair "Ed25519" clock_now = Return key →
     credential_issueVC key
       {| holder := {| Party.id := did; Party.name := alias |};
          issuedBy := {| Party.id := did; Party.name := alias |} |}
       alias did = Return vc →
     vc_success vc = false →
     createIdentity alias provider
     = Throw (ThrowError (new_Error "Failed to create identity"))).
Proof.
  assert (∀ t, createIdentity alias provider = Throw t →
               t = ThrowError (new_Error "Failed to create identity"))
    as Hmask.
  { intros t. unfold createIdentity.
    destruct (createIdentity_try alias provider); congruence. }
  split_and!.
  - exact Hmask.
  - intros ->. destruct (createIdentity "" provider) as [i|t] eqn:Hc.
    + apply createIdentity_return_inv in Hc
        as (keyPair & did & key & vc & _ & _ & _ & _ & _ & Hcreate).
      apply create_success_iff in Hcreate
        as (alias & ? & ? & ? & ? & ? & ? & ? & ? & ? & ? & ? & ? & Halias
            & Hne & _).
      simpl in Halias. by simplify_eq.
    + by rewrite (Hmask t eq_refl).
  - intros keyPair did key vc Hkp Hdid Hkey Hvc Hsuccess.
    unfold createIdentity, createIdentity_try, mbind, outcome_bind.
    by rewrite Hkp, Hdid, Hkey, Hvc, Hsuccess.
Qed.

(** X22. An Identity [createIdentity] returns has the given (non-empty)
    alias, the DID string createDIDKey derived from the generated public
    key, that public key as public-key hex and as key id, the generated
    private key, the given provider or "did:key" when it is empty, and as
    credential the object issueVC resolved to. *)
Theorem createIdentity_record (alias provider : string) (i : Identity) :
  createIdentity alias provider = Return i →
  alias ≠ "" ∧ getAlias i = alias
  ∧ (provider ≠ "" → getProvider i = provider)
  ∧ (provider = "" → getProvider i = "did:key")
  ∧ ∃ keyPair key vc,
      keys_generateKeyPair_default "ed25519" = Return (Some keyPair)
      ∧ did_createDIDKey (publicKey keyPair) "Ed25519" = Return (getDid i)
      ∧ getPublicKey i = publicKey keyPair
      ∧ getKid i = publicKey keyPair
      ∧ getPrivateKeyHex i = Some (privateKey keyPair)
      ∧ credential_Key_create keyPair "Ed25519" clock_now = Return key
      ∧ credential_issueVC key
          {| holder := {| Party.id := getDid i; Party.name := alias |};
             issuedBy := {| Party.id := getDid i; Party.name := alias |} |}
          alias (getDid i) = Return vc
      ∧ vc_success vc = true
      ∧ getCredential i = vc_object vc.
Proof.
  intros Hc. apply createIdentity_return_inv in Hc
    as (keyPair & did & key & vc & Hkp & Hdid & Hkey & Hvc & Hsuccess
        & Hcreate).
  apply create_success_iff in Hcreate
    as (alias' & did' & publicKeyHex & privateKeyHex & privateKeyPEM
        & publicKeyPEM & signer & key' & didUnit & c0 & contract
        & credentialUnit & dna & Halias & ? & Hdid' & ? & Hpub & ?
        & Hpriv & ? & _ & _ & _ & _ & _ & _ & _ & _ & _ & _ & _ & ->).
  simpl in Halias, Hdid', Hpub, Hpriv. simplify_eq.
  unfold getAlias, getProvider, getDid, getPublicKey, getKid,
    getPrivateKeyHex, getCredential. simpl.
  split_and!; try done.
  - intros ?. by apply str_or_truthy.
  - by intros ->.
  - exists keyPair, key, vc. split_and!; try done.
    by apply str_or_truthy.
Qed.

End CreateIdentityMore.

(** * The further properties at work *)
Module MoreChecks.
Import Demo DemoIssuing DemoMore.

(** Bob, as [create] builds him from the README's config. *)
Lemma create_fills_defaults_witness :
  result (create config_bob) = Return (Result.success bob)
  ∧ getAlias bob = "bob" ∧ getProvider bob = "did:key"
  ∧ getMetadata bob = ∅ ∧ getCreatedAt bob = clock_now.
Proof.
  assert (Hc : result (create config_bob) = Return (Result.success bob)).
  { vm_compute. reflexivity. }
  destruct (create_fills_defaults config_bob bob Hc)
    as (Halias & _ & _ & _ & _ & _ & Hprovider & _ & Hmetadata & Hcreated).
  split_and!.
  - exact Hc.
  - exact (f_equal (default "") (eq_sym Halias)).
  - apply (Hprovider "did:key" eq_refl). discriminate.
  - exact Hmetadata.
  - exact Hcreated.
Defined.

Lemma create_toDomain_create_witness :
  result (create config_bob) = Return (Result.success bob)
  ∧ result (create (config_of_domain (toDomain bob)))
    = Return (Result.success bob).
Proof.
  assert (Hc : result (create config_bob) = Return (Result.success bob)).
  { vm_compute. reflexivity. }
  split; [exact Hc|]. exact (create_toDomain_create config_bob bob Hc).
Defined.

Lemma create_success_calls_witness :
  result (create config_bob) = Return (Result.success bob)
  ∧ length (calls (create config_bob)) = 10.
Proof.
  assert (Hc : result (create config_bob) = Return (Result.success bob)).
  { vm_compute. reflexivity. }
  split; [exact Hc|].
  destruct (create_success_calls config_bob bob Hc)
    as (privateKeyHex & privateKeyPEM & publicKeyPEM & contract
        & _ & _ & _ & _ & Hcalls).
  rewrite Hcalls. reflexivity.
Defined.

Lemma create_failure_taxonomy_witness :
  result (create config_without_keys)
  = Return (Result.fail
              "Required fields: alias, publicKeyHex, privateKeyHex, did"
              None [])
  ∧ "Required fields: alias, publicKeyHex, privateKeyHex, did"
      ∈ create_messages.
Proof.
  assert (Hc : result (create config_without_keys)
               = Return (Result.fail
                   "Required fields: alias, publicKeyHex, privateKeyHex, did"
                   None [])).
  { reflexivity. }
  split; [exact Hc|].
  destruct (create_failure_taxonomy config_without_keys _ None [] Hc)
    as [_ [Hin|Hunknown]].
  - exact Hin.
  - discriminate Hunknown.
Defined.

Lemma create_trusts_did_witness :
  result (create config_bob) = Return (Result.success bob)
  ∧ ∃ i', result (create (with_did config_bob "did:key:zother"))
          = Return (Result.success i')
          ∧ getDid i' = "did:key:zother"
          ∧ getPublicKey i' = "b0b0".
Proof.
  assert (Hc : result (create config_bob) = Return (Result.success bob)).
  { vm_compute. reflexivity. }
  split; [exact Hc|].
  destruct (create_trusts_did config_bob bob "did:key:zother" Hc)
    as (i' & Hcreate & Hdid & Hpub & _).
  - discriminate.
  - exists i'. split_and!; [exact Hcreate|exact Hdid|exact Hpub].
Defined.

(** Alice, as [generate] builds her. *)
Lemma generate_record_witness :
  result (generate "alice") = Return (Result.success alice)
  ∧ getAlias alice = "alice" ∧ getProvider alice = "did:key"
  ∧ getKid alice = getPublicKey alice.
Proof.
  assert (Hg : result (generate "alice") = Return (Result.success alice)).
  { vm_compute. reflexivity. }
  destruct (generate_record "alice" alice Hg)
    as (Halias & Hprovider & Hkid & _).
  split_and!; [exact Hg|exact Halias|exact Hprovider|exact Hkid].
Defined.

Lemma generate_success_calls_witness :
  result (generate "alice") = Return (Result.success alice)
  ∧ length (calls (generate "alice")) = 17.
Proof.
  assert (Hg : result (generate "alice") = Return (Result.success alice)).
  { vm_compute. reflexivity. }
  split; [exact Hg|].
  destruct (generate_success_calls "alice" alice Hg)
    as (keyPair & publicKeyPEM & privateKeyPEM & contract
        & _ & _ & _ & _ & Hcalls).
  rewrite Hcalls. reflexivity.
Defined.

(** Alice has learned her signer's verify. *)
Lemma verify_override_witness :
  verify alice "hello" "sig[hello]"
  = ([execute_call "signer.verify" [DString "hello"; DString "sig[hello]"]],
     Return (DBool true)).
Proof.
  refine (proj1 (verify_override alice "hello" "sig[hello]"
                                 verify_capability _)).
  vm_compute. reflexivity.
Defined.

Lemma created_identity_can_sign_witness :
  result (create config_bob) = Return (Result.success bob)
  ∧ sign bob "hello"
    = ([Signer_sign_call "hello"], Return (DString "sig[hello]")).
Proof.
  assert (Hc : result (create config_bob) = Return (Result.success bob)).
  { vm_compute. reflexivity. }
  split; [exact Hc|].
  exact (created_identity_can_sign config_bob bob ∅ "hello" Hc).
Defined.

(** Bob issues a credential for Carol, naming no issuer. *)
Lemma issueCredential_fallback_witness :
  calls (issueCredential bob subject_carol "MembershipCredential" None)
  = [Credential_issueCredential_call
       subject_carol "MembershipCredential" "did:key:zb0b0"].
Proof.
  refine (proj1 (issueCredential_fallback
                   bob subject_carol "MembershipCredential" None
                   "did:key:zb0b0" _ _)).
  - reflexivity.
  - right. split; [left|]; reflexivity.
Defined.

Lemma issueCredential_override_witness :
  issueCredential bob_issuer_taught subject_carol "MembershipCredential" None
  = ([execute_call "credential.issueCredential"
        [subject_data subject_carol; DString "MembershipCredential";
         DString "did:key:zb0b0"]],
     Return (FromCapability (DString "issued"))).
Proof.
  refine (proj1 (issueCredential_override
                   bob_issuer_taught subject_carol "MembershipCredential"
                   None "did:key:zb0b0" issue_capability _ _)).
  - vm_compute. reflexivity.
  - right. split; [left|]; reflexivity.
Defined.

Lemma createIdentity_errors_witness :
  createIdentity "" "did:key"
  = Throw (ThrowError (new_Error "Failed to create identity")).
Proof.
  exact (proj1 (proj2 (createIdentity_errors "" "did:key")) eq_refl).
Defined.

Lemma createIdentity_record_witness :
  ∃ i, createIdentity "alice" "" = Return i
       ∧ getAlias i = "alice" ∧ getProvider i = "did:key"
       ∧ getPublicKey i = "a1b2".
Proof.
  assert (Hex : ∃ i, createIdentity "alice" "" = Return i).
  { vm_compute. eexists. reflexivity. }
  destruct Hex as [i Hi]. exists i.
  destruct (createIdentity_record "alice" "" i Hi)
    as (_ & Halias & _ & Hprovider & keyPair & key & vc & Hkp & _ & Hpub & _).
  split_and!.
  - exact Hi.
  - exact Halias.
  - exact (Hprovider eq_refl).
  - rewrite Hpub. injection Hkp as <-. reflexivity.
Defined.

End MoreChecks.

Module ChecksRejectedHex.
#[local] Existing Instance Faulty.rejecting_hex.

(** A public key that is no hex string. *)
Lemma create_conversion_failure_witness :
  create Faulty.config_zz
  = ([hexPrivateKeyToPem_call "5ec7"; hexToPem_call "zz" "ed25519"],
     Return (Result.fail "Failed to convert keys to PEM format"
               (Some (new_Error "Failed to convert keys to PEM format")) [])).
Proof.
  refine (proj2 (create_conversion_failure
                   Faulty.config_zz "bob" "did:key:zb0b0" "zz" "5ec7"
                   eq_refl _ eq_refl _ eq_refl _ eq_refl _)
                (Some "PEM:5ec7") None eq_refl eq_refl
                (or_intror (or_introl eq_refl))).
  all: discriminate.
Defined.

End ChecksRejectedHex.

Module ChecksWithoutSigner.
#[local] Existing Instance Faulty.signerless.

Lemma create_unit_not_built_witness :
  create Demo.config_bob
  = ([hexPrivateKeyToPem_call "5ec7"; hexToPem_call "b0b0" "ed25519";
      Signer_create_call Demo.signer_bob],
     Return (Result.fail "Failed to create signer from key material" None [])).
Proof.
  refine (proj1 (create_unit_not_built
                   Demo.config_bob "bob" "did:key:zb0b0" "b0b0" "5ec7"
                   "PEM:5ec7" "PEM:b0b0"
                   eq_refl _ eq_refl _ eq_refl _ eq_refl _ eq_refl _
                   eq_refl _) eq_refl).
  all: discriminate.
Defined.

End ChecksWithoutSigner.

Module ChecksWithoutKeyPair.
#[local] Existing Instance Faulty.keyless.

Lemma generate_unit_not_built_witness :
  generate "alice"
  = ([generateKeyPair_call "ed25519" "hex"],
     Return (Result.fail "Failed to generate key pair"
               (Some (new_Error "Failed to generate key pair")) [])).
Proof.
  exact (proj1 (generate_unit_not_built "alice") eq_refl).
Defined.

End ChecksWithoutKeyPair.

Module ChecksIssuerDown.
#[local] Existing Instance Faulty.issuerless.

Lemma generate_failure_taxonomy_witness :
  result (generate "alice")
  = Return (Result.fail
              "Failed to issue identity credential: no signing key" None [])
  ∧ ∃ subject issuer details c d unit,
      credential_Credential_issueCredential
        unit subject "IdentityCredential" issuer
      = Return (Result.fail details c d)
      ∧ "Failed to issue identity credential: no signing key"
        = "Failed to issue identity credential: " +:+ details.
Proof.
  assert (Hg : result (generate "alice")
               = Return (Result.fail
                   "Failed to issue identity credential: no signing key"
                   None [])).
  { vm_compute. reflexivity. }
  split; [exact Hg|].
  destruct (generate_failure_taxonomy "alice" _ None [] Hg)
    as [_ [Hunknown|Hissue]].
  - discriminate Hunknown.
  - exact Hissue.
Defined.

End ChecksIssuerDown.
